(** * The tabbed browser widget of qutebrowser

    A shallow embedding of [qutebrowser/widgets/_tabbedbrowser.py] (class
    [TabbedBrowser]) and the properties of its tab collection, its undo stack
    and its shutdown sequence.

    The class is written against two collaborators that are not part of the
    file: the Qt base class [QTabWidget] (the visible pages and the current
    index) and the per-tab object [BrowserTab].  Both are modelled below, as
    far as the methods of [TabbedBrowser] call them. *)

From Stdlib Require Import List ZArith String Bool Lia Permutation.
Import ListNotations.
Local Open Scope Z_scope.

(** ** Data *)

(** A tab is a Python object; what matters is its identity. *)
Definition Tab := nat.

(** Locations are [QUrl] values. *)
Definition QUrl := string.

(** The signals a [BrowserTab] offers ([_connect_tab_signals]). *)
Inductive TabSignal :=
| linkHovered | loadProgress | loadFinished | loadStarted | statusBarMessage
| scroll_pos_changed | urlChanged | hintmanager_hint_strings_updated
| titleChanged | open_tab.

(** The signals of [TabbedBrowser] itself (the class attributes). *)
Inductive Signal :=
| cur_progress | cur_load_started | cur_load_finished | cur_statusbar_message
| cur_url_changed | cur_link_hovered | cur_scroll_perc_changed
| hint_strings_updated | shutdown_complete | quit | resized.

(** What a tab signal is connected to. *)
Inductive Target :=
| FilterCreate (s : Signal)   (* self._filter.create(self.<s>) *)
| ClearSignalCache            (* lambda: self.sender().signal_cache.clear() *)
| Forward (s : Signal)        (* connected straight to a signal of self *)
| on_title_changed_slot       (* self.on_title_changed *)
| tabopen_slot.               (* self.tabopen *)

Definition Connection := (Tab * TabSignal * Target)%type.

(** The arguments of the [logging.debug] calls. *)
Inductive DebugLine :=
| TabsAfterRemoving (tabs : list Tab)
| TabShutdownComplete
| NoTabsShutdownComplete
| ShuttingDownTab (tabidx tabcount : Z)
| Opening (url : QUrl).

(** Everything a method does besides changing the state of the widget, in
    the order in which it happens. *)
Inductive Effect :=
| Emit (s : Signal)                 (* self.<s>.emit() *)
| MessageError (text : string)      (* message.error(text) *)
| LogException (tab : Tab)          (* logging.exception("tab {} could not be removed") *)
| LogDebug (line : DebugLine)       (* logging.debug(...) *)
| TabShow (tab : Tab)               (* tab.show() *)
| TabOpenurl (tab : Tab) (url : QUrl)  (* tab.openurl(url) *)
| TabShutdown (tab : Tab)           (* tab.shutdown(callback=...) *)
| CacheReplay (tab : Tab).          (* tab.signal_cache.replay() *)

(** The two settings read through [config.get('tabbar', ...)]. *)
Record Config := mkConfig {
  last_close : string;
  wrap : bool
}.

Record State := mkState {
  _tabs : list Tab;              (* self._tabs *)
  _url_stack : list QUrl;        (* self._url_stack, appended and popped at the end *)
  pages : list Tab;              (* QTabWidget: the widgets, in display order *)
  current : Z;                   (* QTabWidget: currentIndex(), -1 without pages *)
  replay_connected : bool;       (* currentChanged is connected to the replay lambda *)
  connections : list Connection; (* the signal connections made so far *)
  location : Tab -> QUrl;        (* tab.url() of every tab *)
  next_tab : Tab;                (* identity of the next BrowserTab object *)
  callbacks : list Tab;          (* partial(self._cb_tab_shutdown, tab) handed to
                                    tab.shutdown and not called yet *)
  config : Config
}.

(** The exceptions that occur in the file. *)
Inductive exn :=
| ValueError | TypeError | ZeroDivisionError | IndexError | AttributeError.

Definition exn_eqb (a b : exn) : bool :=
  match a, b with
  | ValueError, ValueError | TypeError, TypeError
  | ZeroDivisionError, ZeroDivisionError | IndexError, IndexError
  | AttributeError, AttributeError => true
  | _, _ => false
  end.

(** ** The monad of methods

    A method runs on the state of the widget, returns a value or raises, and
    leaves a list of effects. *)

Record Run (A : Type) := mkRun {
  value : A + exn;
  final : State;
  effects : list Effect
}.
Arguments mkRun {A} _ _ _.
Arguments value {A} _.
Arguments final {A} _.
Arguments effects {A} _.

Definition M (A : Type) := State -> Run A.

Definition ret {A} (a : A) : M A := fun s => mkRun (inl a) s [].

Definition bind {A B} (m : M A) (f : A -> M B) : M B :=
  fun s =>
    let r := m s in
    match value r with
    | inl a => let r' := f a (final r) in
               mkRun (value r') (final r') (effects r ++ effects r')
    | inr e => mkRun (inr e) (final r) (effects r)
    end.

Declare Scope py_scope.
Delimit Scope py_scope with py.
Notation "x <- m ;; k" := (bind m (fun x => k))
  (at level 61, m at next level, right associativity) : py_scope.
Notation "m ;; k" := (bind m (fun _ => k))
  (at level 61, right associativity) : py_scope.
Local Open Scope py_scope.

Definition raise {A} (e : exn) : M A := fun s => mkRun (inr e) s [].
Definition get : M State := fun s => mkRun (inl s) s [].
Definition put (s : State) : M unit := fun _ => mkRun (inl tt) s [].
Definition tell (e : Effect) : M unit := fun s => mkRun (inl tt) s [e].

(** [try: m / except e: handler]. *)
Definition try_except (m : M unit) (e : exn) (handler : M unit) : M unit :=
  fun s =>
    let r := m s in
    match value r with
    | inl a => r
    | inr e' =>
        if exn_eqb e' e
        then let r' := handler (final r) in
             mkRun (value r') (final r') (effects r ++ effects r')
        else r
    end.

(** [for x in l: body x]. *)
Fixpoint for_each {A} (l : list A) (body : A -> M unit) : M unit :=
  match l with
  | [] => ret tt
  | x :: l' => body x ;; for_each l' body
  end.

(** [range(n)]. *)
Definition range (n : Z) : list Z := map Z.of_nat (seq 0 (Z.to_nat n)).

(** [a % b] on Python integers: the result has the sign of [b]. *)
Definition py_mod (a b : Z) : M Z :=
  if b =? 0 then raise ZeroDivisionError else ret (a mod b).

(** [l.remove(x)]: the first occurrence. *)
Fixpoint remove_first (x : Tab) (l : list Tab) : list Tab :=
  match l with
  | [] => []
  | y :: l' => if Nat.eqb x y then l' else y :: remove_first x l'
  end.

Definition mem (x : Tab) (l : list Tab) : bool := existsb (Nat.eqb x) l.

(** State updates, one per attribute. *)
Definition set_tabs (v : list Tab) (s : State) : State :=
  mkState v (_url_stack s) (pages s) (current s) (replay_connected s)
          (connections s) (location s) (next_tab s) (callbacks s) (config s).
Definition set_url_stack (v : list QUrl) (s : State) : State :=
  mkState (_tabs s) v (pages s) (current s) (replay_connected s)
          (connections s) (location s) (next_tab s) (callbacks s) (config s).
Definition set_pages (v : list Tab) (s : State) : State :=
  mkState (_tabs s) (_url_stack s) v (current s) (replay_connected s)
          (connections s) (location s) (next_tab s) (callbacks s) (config s).
Definition set_current (v : Z) (s : State) : State :=
  mkState (_tabs s) (_url_stack s) (pages s) v (replay_connected s)
          (connections s) (location s) (next_tab s) (callbacks s) (config s).
Definition set_replay_connected (v : bool) (s : State) : State :=
  mkState (_tabs s) (_url_stack s) (pages s) (current s) v
          (connections s) (location s) (next_tab s) (callbacks s) (config s).
Definition set_connections (v : list Connection) (s : State) : State :=
  mkState (_tabs s) (_url_stack s) (pages s) (current s) (replay_connected s)
          v (location s) (next_tab s) (callbacks s) (config s).
Definition set_location (v : Tab -> QUrl) (s : State) : State :=
  mkState (_tabs s) (_url_stack s) (pages s) (current s) (replay_connected s)
          (connections s) v (next_tab s) (callbacks s) (config s).
Definition set_next_tab (v : Tab) (s : State) : State :=
  mkState (_tabs s) (_url_stack s) (pages s) (current s) (replay_connected s)
          (connections s) (location s) v (callbacks s) (config s).
Definition set_callbacks (v : list Tab) (s : State) : State :=
  mkState (_tabs s) (_url_stack s) (pages s) (current s) (replay_connected s)
          (connections s) (location s) (next_tab s) v (config s).

Definition modify (f : State -> State) : M unit :=
  fun s => mkRun (inl tt) (f s) [].

(** ** The collaborators *)

(** The methods of the Qt base class that [TabbedBrowser] calls, after the Qt
    documentation: pages are kept in display order, [currentIndex()] is [-1]
    exactly when there is no page, an index out of range is ignored. *)
Module QTabWidget.

Definition count : M Z :=
  s <- get ;; ret (Z.of_nat (List.length (pages s))).

Definition currentIndex : M Z :=
  s <- get ;; ret (current s).

Definition valid_index (s : State) (index : Z) : bool :=
  (0 <=? index) && (index <? Z.of_nat (List.length (pages s))).

(** [widget(index)]: the page, or [None] when the index is out of range. *)
Definition widget (index : Z) : M (option Tab) :=
  s <- get ;;
  ret (if valid_index s index then nth_error (pages s) (Z.to_nat index)
       else None).

Definition currentWidget : M (option Tab) :=
  index <- currentIndex ;; widget index.

Fixpoint index_from (tab : Tab) (l : list Tab) (i : Z) : Z :=
  match l with
  | [] => -1
  | t :: l' => if Nat.eqb tab t then i else index_from tab l' (i + 1)
  end.

(** [indexOf(tab)]: the position of the page, or [-1]. *)
Definition indexOf (tab : Tab) : M Z :=
  s <- get ;; ret (index_from tab (pages s) 0).

(** The signal [currentChanged(index)].  Its only slot is the one connected
    in [__init__], [lambda idx: self.widget(idx).signal_cache.replay()],
    until [shutdown] disconnects it. *)
Definition currentChanged (index : Z) : M unit :=
  s <- get ;;
  if replay_connected s then
    w <- widget index ;;
    match w with
    | Some tab => tell (CacheReplay tab)
    | None => ret tt
    end
  else ret tt.

Definition setCurrentIndex (index : Z) : M unit :=
  s <- get ;;
  if valid_index s index && negb (index =? current s) then
    modify (set_current index) ;; currentChanged index
  else ret tt.

Definition setCurrentWidget (tab : Tab) : M unit :=
  index <- indexOf tab ;; setCurrentIndex index.

(** [addTab(tab, label)]: the page is appended; the first page of an empty
    widget becomes the current one.  Labels are not kept. *)
Definition addTab (tab : Tab) : M Z :=
  s <- get ;;
  modify (set_pages (pages s ++ [tab])) ;;
  (match pages s with
   | [] => modify (set_current 0) ;; currentChanged 0
   | _ :: _ => ret tt
   end) ;;
  ret (Z.of_nat (List.length (pages s))).

Definition remove_nth (i : nat) (l : list Tab) : list Tab :=
  firstn i l ++ skipn (S i) l.

(** [removeTab(index)]: with the default selection behaviour the page to
    the right of a removed current page becomes current (the last page, if
    there is none to the right); pages after the removed one move down. *)
Definition removeTab (index : Z) : M unit :=
  s <- get ;;
  if valid_index s index then
    let pages' := remove_nth (Z.to_nat index) (pages s) in
    modify (set_pages pages') ;;
    if index =? current s then
      match pages' with
      | [] => modify (set_current (-1)) ;; currentChanged (-1)
      | _ :: _ =>
          let newidx := Z.min index (Z.of_nat (List.length pages') - 1) in
          modify (set_current newidx) ;; currentChanged newidx
      end
    else if index <? current s then
      modify (set_current (current s - 1)) ;; currentChanged (current s - 1)
    else ret tt
  else ret tt.

End QTabWidget.

(** Modelled from the spec: the class [BrowserTab]
    (qutebrowser/widgets/browsertab.py) is missing.  The spec gives a tab an
    identity that is never reused, a current location, [navigate(location)]
    and [requestShutdown(onComplete)], whose confirmation arrives later as an
    invocation of the callback. *)
Module BrowserTab.

(** [BrowserTab(self)]: a new object. *)
Definition new : M Tab :=
  s <- get ;; modify (set_next_tab (S (next_tab s))) ;; ret (next_tab s).

Definition show (tab : Tab) : M unit := tell (TabShow tab).

Definition url (tab : Tab) : M QUrl :=
  s <- get ;; ret (location s tab).

Definition openurl (tab : Tab) (u : QUrl) : M unit :=
  tell (TabOpenurl tab u) ;;
  s <- get ;;
  modify (set_location
            (fun t => if Nat.eqb t tab then u else location s t)).

(** [tab.shutdown(callback=partial(self._cb_tab_shutdown, tab))]: the
    callback is kept until the tab has shut down. *)
Definition shutdown (tab : Tab) : M unit :=
  tell (TabShutdown tab) ;;
  s <- get ;; modify (set_callbacks (callbacks s ++ [tab])).

End BrowserTab.

(** Modelled from the spec: [qutebrowser.utils.url.qurl] is missing.
    Locations are kept as [QUrl] values, which the conversion leaves as they
    are. *)
Definition qurl (url : QUrl) : QUrl := url.

(** [message.error(text)] of the notification collaborator. *)
Definition message_error (text : string) : M unit := tell (MessageError text).

(** [config.get('tabbar', 'last_close')] and [config.get('tabbar', 'wrap')]. *)
Definition config_get_last_close : M string :=
  s <- get ;; ret (last_close (config s)).
Definition config_get_wrap : M bool :=
  s <- get ;; ret (wrap (config s)).

Definition emit (sig : Signal) : M unit := tell (Emit sig).

(** ** The methods of [TabbedBrowser] *)

(** [__init__]: no tabs, an empty undo stack, [currentChanged] connected. *)
Definition init (c : Config) : State :=
  mkState [] [] [] (-1) true [] (fun _ => EmptyString) 0%nat [] c.

(** [self._tabs.remove(tab)]. *)
Definition tabs_remove (tab : Tab) : M unit :=
  s <- get ;;
  if mem tab (_tabs s) then modify (set_tabs (remove_first tab (_tabs s)))
  else raise ValueError.

Definition _cb_tab_shutdown (tab : Tab) : M unit :=
  try_except (tabs_remove tab) ValueError (tell (LogException tab)) ;;
  s <- get ;;
  tell (LogDebug (TabsAfterRemoving (_tabs s))) ;;
  match _tabs s with
  | [] => tell (LogDebug TabShutdownComplete) ;; emit shutdown_complete
  | _ :: _ => ret tt
  end.

Definition connect (tab : Tab) (sig : TabSignal) (target : Target) : M unit :=
  s <- get ;;
  modify (set_connections (connections s ++ [(tab, sig, target)])).

Definition _connect_tab_signals (tab : Tab) : M unit :=
  connect tab linkHovered (FilterCreate cur_link_hovered) ;;
  connect tab loadProgress (FilterCreate cur_progress) ;;
  connect tab loadFinished (FilterCreate cur_load_finished) ;;
  connect tab loadStarted ClearSignalCache ;;
  connect tab loadStarted (FilterCreate cur_load_started) ;;
  connect tab statusBarMessage (FilterCreate cur_statusbar_message) ;;
  connect tab scroll_pos_changed (FilterCreate cur_scroll_perc_changed) ;;
  connect tab urlChanged (FilterCreate cur_url_changed) ;;
  connect tab hintmanager_hint_strings_updated (Forward hint_strings_updated) ;;
  connect tab titleChanged on_title_changed_slot ;;
  connect tab open_tab tabopen_slot.

Definition cntwidget (count : option Z) : M (option Tab) :=
  match count with
  | None => QTabWidget.currentWidget
  | Some count =>
      n <- QTabWidget.count ;;
      if (1 <=? count) && (count <=? n) then QTabWidget.widget (count - 1)
      else ret None
  end.

(** [self.currentChanged.disconnect()] raises [TypeError] when nothing is
    connected. *)
Definition currentChanged_disconnect : M unit :=
  s <- get ;;
  if replay_connected s then modify (set_replay_connected false)
  else raise TypeError.

Definition shutdown : M unit :=
  try_except currentChanged_disconnect TypeError (ret tt) ;;
  tabcount <- QTabWidget.count ;;
  if tabcount =? 0 then
    tell (LogDebug NoTabsShutdownComplete) ;;
    emit shutdown_complete
  else
    for_each (range tabcount) (fun tabidx =>
      tell (LogDebug (ShuttingDownTab tabidx tabcount)) ;;
      tab <- QTabWidget.widget tabidx ;;
      match tab with
      | Some tab => BrowserTab.shutdown tab
      | None => raise AttributeError
      end).

Definition about_blank : QUrl := "about:blank"%string.

Definition tabclose (count : option Z) : M unit :=
  idx <- match count with
         | None => QTabWidget.currentIndex
         | Some count => ret (count - 1)
         end ;;
  tab <- cntwidget count ;;
  match tab with
  | None => ret tt
  | Some tab =>
      last_close <- config_get_last_close ;;
      n <- QTabWidget.count ;;
      if 1 <? n then
        u <- BrowserTab.url tab ;;
        s <- get ;;
        modify (set_url_stack (_url_stack s ++ [u])) ;;
        QTabWidget.removeTab idx ;;
        BrowserTab.shutdown tab
      else if String.eqb last_close "quit" then emit quit
      else if String.eqb last_close "blank" then BrowserTab.openurl tab about_blank
      else ret tt
  end.

(** The method has no [return] statement: its value is [None].  The type
    leaves room for a tab, so that a returned tab can be spoken of. *)
Definition tabopen (url : QUrl) (background : bool) : M (option Tab) :=
  tell (LogDebug (Opening url)) ;;
  let url := qurl url in
  tab <- BrowserTab.new ;;
  _connect_tab_signals tab ;;
  s <- get ;;
  modify (set_tabs (_tabs s ++ [tab])) ;;
  QTabWidget.addTab tab ;;
  BrowserTab.show tab ;;
  BrowserTab.openurl tab url ;;
  (if negb background then QTabWidget.setCurrentWidget tab else ret tt) ;;
  ret None.

Definition backtabopen (url : QUrl) : M (option Tab) :=
  tabopen url true ;; ret None.

(** [self._url_stack.pop()]: the last element. *)
Definition url_stack_pop : M QUrl :=
  s <- get ;;
  match rev (_url_stack s) with
  | [] => raise IndexError
  | u :: rest => modify (set_url_stack (rev rest)) ;; ret u
  end.

Definition undo_close : M unit :=
  s <- get ;;
  match _url_stack s with
  | _ :: _ => u <- url_stack_pop ;; tabopen u false ;; ret tt
  | [] => message_error "Nothing to undo!"
  end.

Definition switch_prev (count : Z) : M unit :=
  cur <- QTabWidget.currentIndex ;;
  let newidx := cur - count in
  if 0 <=? newidx then QTabWidget.setCurrentIndex newidx
  else
    w <- config_get_wrap ;;
    if w then
      n <- QTabWidget.count ;;
      i <- py_mod newidx n ;;
      QTabWidget.setCurrentIndex i
    else message_error "First tab".

Definition switch_next (count : Z) : M unit :=
  cur <- QTabWidget.currentIndex ;;
  let newidx := cur + count in
  n <- QTabWidget.count ;;
  if newidx <? n then QTabWidget.setCurrentIndex newidx
  else
    w <- config_get_wrap ;;
    if w then
      n <- QTabWidget.count ;;
      i <- py_mod newidx n ;;
      QTabWidget.setCurrentIndex i
    else message_error "Last tab".

(** The toolkit calls a callback it was given by [tab.shutdown]. *)
Definition confirm (tab : Tab) : M unit :=
  s <- get ;;
  modify (set_callbacks (remove_first tab (callbacks s))) ;;
  _cb_tab_shutdown tab.

Definition confirm_all (order : list Tab) : M unit :=
  for_each order confirm.

(** How often a signal was emitted. *)
Fixpoint emitted (sig : Signal) (l : list Effect) : nat :=
  match l with
  | [] => 0%nat
  | Emit s :: l' =>
      match sig, s with
      | shutdown_complete, shutdown_complete | quit, quit => S (emitted sig l')
      | _, _ => emitted sig l'
      end
  | _ :: l' => emitted sig l'
  end.
(** ** Notions used in the statements *)

(** What [switch_next] and [switch_prev] do when they move the index. *)
Definition moves_to (r : Run unit) (s : State) (target : Z) : Prop :=
  value r = inl tt /\ final r = set_current target s /\
  current (final r) = target /\
  forall text, ~ In (MessageError text) (effects r).

(** The current index fits the pages. *)
Definition current_ok (l : list Tab) (c : Z) : Prop :=
  match l with
  | [] => c = -1
  | _ :: _ => 0 <= c < Z.of_nat (List.length l)
  end.

(** The index [tabclose] passes to [removeTab]. *)
Definition close_index (s : State) (count : option Z) : Z :=
  match count with
  | None => current s
  | Some count => count - 1
  end.

(** The connections [_connect_tab_signals] makes for a tab. *)
Definition wiring (tab : Tab) : list Connection :=
  [ (tab, linkHovered, FilterCreate cur_link_hovered);
    (tab, loadProgress, FilterCreate cur_progress);
    (tab, loadFinished, FilterCreate cur_load_finished);
    (tab, loadStarted, ClearSignalCache);
    (tab, loadStarted, FilterCreate cur_load_started);
    (tab, statusBarMessage, FilterCreate cur_statusbar_message);
    (tab, scroll_pos_changed, FilterCreate cur_scroll_perc_changed);
    (tab, urlChanged, FilterCreate cur_url_changed);
    (tab, hintmanager_hint_strings_updated, Forward hint_strings_updated);
    (tab, titleChanged, on_title_changed_slot);
    (tab, open_tab, tabopen_slot) ].

(** The state after [tabopen]: a new tab, wired, appended to [_tabs] and to
    the pages, sent to the url, with [c] as current index. *)
Definition opened (s : State) (url : QUrl) (c : Z) : State :=
  let tab := next_tab s in
  mkState (_tabs s ++ [tab]) (_url_stack s) (pages s ++ [tab]) c
          (replay_connected s) (connections s ++ wiring tab)
          (fun t => if Nat.eqb t tab then url else location s t)
          (S tab) (callbacks s) (config s).

(** The current index after [tabopen]. *)
Definition opened_index (s : State) (background : bool) : Z :=
  if background then
    match pages s with
    | [] => 0
    | _ :: _ => current s
    end
  else Z.of_nat (List.length (pages s)).

(** Before [shutdown]: the current index fits the pages, no tab is twice in
    [_tabs], the tabs of [_tabs] are the pages together with the closed tabs
    whose shutdown is not confirmed yet, and they all are older than the next
    tab object. *)
Record wf (s : State) : Prop := mk_wf {
  wf_current : current_ok (pages s) (current s);
  wf_nodup : NoDup (_tabs s);
  wf_split : Permutation (_tabs s) (pages s ++ callbacks s);
  wf_fresh : forall t, In t (_tabs s) -> (t < next_tab s)%nat
}.

(** The state after [tabclose] has taken a page out. *)
Definition closed (s : State) (i : Z) (tab : Tab) (c : Z) : State :=
  mkState (_tabs s) (_url_stack s ++ [location s tab])
          (QTabWidget.remove_nth (Z.to_nat i) (pages s)) c
          (replay_connected s) (connections s) (location s) (next_tab s)
          (callbacks s ++ [tab]) (config s).

(** A run reopened [url]: a new tab was appended, sent to [url], and is the
    current one. *)
Definition reopened (r : Run unit) (before : State) (url : QUrl) : Prop :=
  let tab := next_tab before in
  value r = inl tt /\
  _tabs (final r) = _tabs before ++ [tab] /\
  pages (final r) = pages before ++ [tab] /\
  In (TabOpenurl tab url) (effects r) /\
  location (final r) tab = url /\
  nth_error (pages (final r)) (Z.to_nat (current (final r))) = Some tab.

(** The body of the loop of [shutdown]. *)
Definition shutdown_tab (tabcount tabidx : Z) : M unit :=
  tell (LogDebug (ShuttingDownTab tabidx tabcount)) ;;
  tab <- QTabWidget.widget tabidx ;;
  match tab with
  | Some tab => BrowserTab.shutdown tab
  | None => raise AttributeError
  end.

(** What happens to the widget before shutdown: the commands, and the
    confirmation of a closed tab. *)
Inductive Command :=
| Tabopen (url : QUrl) (background : bool)
| Tabclose (count : option Z)
| UndoClose
| SwitchNext (count : Z)
| SwitchPrev (count : Z)
| Confirm (tab : Tab).

Definition perform (c : Command) (s : State) : State :=
  match c with
  | Tabopen url background => final (tabopen url background s)
  | Tabclose count => final (tabclose count s)
  | UndoClose => final (undo_close s)
  | SwitchNext count => final (switch_next count s)
  | SwitchPrev count => final (switch_prev count s)
  | Confirm tab => final (confirm tab s)
  end.

(** A confirmation only arrives for a callback that was handed out. *)
Definition possible (c : Command) (s : State) : Prop :=
  match c with
  | Confirm tab => In tab (callbacks s)
  | _ => True
  end.

Inductive reachable (c : Config) : State -> Prop :=
| reachable_init : reachable c (init c)
| reachable_step (s : State) (cmd : Command) :
    reachable c s -> possible cmd s -> reachable c (perform cmd s).

Definition quit_config : Config := mkConfig "quit" true.
Definition blank_config : Config := mkConfig "blank" false.

(** Three tabs, the first one current. *)
Definition three_tabs : State :=
  perform (Tabopen "http://c"%string true)
    (perform (Tabopen "http://b"%string true)
       (perform (Tabopen "http://a"%string false) (init quit_config))).

(** One tab, and "blank" as the behaviour on closing it. *)
Definition one_tab : State :=
  perform (Tabopen "http://a"%string false) (init blank_config).

(** Three tabs of which the second has been closed and not yet confirmed. *)
Definition one_closed : State := perform (Tabclose (Some 2)) three_tabs.

(** The tabs asked to shut down, in the order of the requests. *)
Fixpoint shutdown_requests (l : list Effect) : list Tab :=
  match l with
  | [] => []
  | TabShutdown t :: l' => t :: shutdown_requests l'
  | _ :: l' => shutdown_requests l'
  end.

(** Whether an effect is the replay of a signal cache. *)
Definition is_replay (e : Effect) : bool :=
  match e with
  | CacheReplay _ => true
  | _ => false
  end.

(** ** Basic facts *)

(** Integer arithmetic stays folded while the methods are unfolded. *)
#[local] Arguments Z.add : simpl never.
#[local] Arguments Z.sub : simpl never.
#[local] Arguments Z.opp : simpl never.
#[local] Arguments Z.modulo : simpl never.
#[local] Arguments Z.min : simpl never.
#[local] Arguments Z.ltb : simpl never.
#[local] Arguments Z.leb : simpl never.
#[local] Arguments Z.eqb : simpl never.
#[local] Arguments Z.of_nat : simpl never.
#[local] Arguments Z.to_nat : simpl never.
#[local] Arguments String.eqb : simpl never.

Lemma set_current_same (s : State) : set_current (current s) s = s.
Proof. destruct s; reflexivity. Qed.

Lemma valid_index_spec (s : State) (i : Z) :
  QTabWidget.valid_index s i = true <-> 0 <= i < Z.of_nat (List.length (pages s)).
Proof.
  unfold QTabWidget.valid_index.
  rewrite andb_true_iff, Z.leb_le, Z.ltb_lt. tauto.
Qed.

(** [setCurrentIndex] with an index in range: the index becomes current,
    nothing else changes, nothing is raised and nobody is told anything but
    the replay of the signal cache. *)
Lemma setCurrentIndex_valid (s : State) (i : Z) :
  QTabWidget.valid_index s i = true ->
  let r := QTabWidget.setCurrentIndex i s in
  value r = inl tt /\ final r = set_current i s /\
  (forall e, In e (effects r) -> exists t, e = CacheReplay t).
Proof.
  intros Hv. unfold QTabWidget.setCurrentIndex, bind, get. cbn.
  rewrite Hv. cbn.
  destruct (i =? current s) eqn:E; cbn.
  - apply Z.eqb_eq in E. subst i. rewrite set_current_same.
    repeat split. intros e [].
  - unfold QTabWidget.currentChanged, bind, get. cbn.
    destruct (replay_connected s); cbn.
    + unfold QTabWidget.widget, bind, get; cbn.
      destruct (if QTabWidget.valid_index (set_current i s) i then _ else _); cbn.
      * repeat split. intros e [<-|[]]. eauto.
      * repeat split. intros e [].
    + repeat split. intros e [].
Qed.

(** ** Closing by an index out of range *)

(** C10. [tabclose] with a 1-based index outside [1 .. count()] does
    nothing at all: it returns normally, has no effect (no message, no log
    line, no signal) and ends in the state it started in, so the tabs, the
    current index and the undo stack are as before. *)
Theorem tabclose_out_of_range_noop (s : State) (count : Z) :
  ~ (1 <= count <= Z.of_nat (List.length (pages s))) ->
  tabclose (Some count) s = mkRun (inl tt) s [].
Proof.
  intros Hout. unfold tabclose, cntwidget, QTabWidget.count, bind, get, ret.
  cbn.
  destruct ((1 <=? count) && (count <=? Z.of_nat (List.length (pages s)))) eqn:E.
  - apply andb_true_iff in E. destruct E as [E1 E2].
    apply Z.leb_le in E1. apply Z.leb_le in E2. lia.
  - reflexivity.
Qed.

(** ** Shutdown without tabs *)

(** C7. With no page in the widget, [shutdown] itself emits
    [shutdown_complete], once, asks no tab to shut down and hands out no
    callback. *)
Theorem shutdown_no_tabs (s : State) :
  pages s = [] ->
  let r := shutdown s in
  value r = inl tt /\
  effects r = [LogDebug NoTabsShutdownComplete; Emit shutdown_complete] /\
  emitted shutdown_complete (effects r) = 1%nat /\
  (forall t, ~ In (TabShutdown t) (effects r)) /\
  callbacks (final r) = callbacks s.
Proof.
  intros Hp. unfold shutdown, try_except, currentChanged_disconnect,
    QTabWidget.count, bind, get. cbn.
  destruct (replay_connected s); cbn; rewrite Hp; cbn;
    (repeat split; [intros t [H|[H|[]]]; discriminate H]).
Qed.

(** ** Switching on an empty widget *)

(** C6. On a widget without pages (count 0, current index -1) and with
    wrapping switched on, [switch_next] and [switch_prev] reach
    [newidx % self.count()] for every count >= 1 and raise
    [ZeroDivisionError]. *)
Theorem switch_empty_wrap_raises (s : State) (count : Z) :
  pages s = [] -> current s = -1 -> wrap (config s) = true -> 1 <= count ->
  value (switch_next count s) = inr ZeroDivisionError /\
  value (switch_prev count s) = inr ZeroDivisionError.
Proof.
  intros Hp Hc Hw Hn.
  destruct s as [tabs stack pgs cur rc conns loc nt cbs [lc w]].
  simpl in Hp, Hc, Hw. subst pgs cur w.
  unfold switch_next, switch_prev, QTabWidget.currentIndex, QTabWidget.count,
    config_get_wrap, py_mod, bind, get. cbn.
  replace (-1 + count <? Z.of_nat 0) with false
    by (symmetry; apply Z.ltb_ge; lia).
  replace (0 <=? -1 - count) with false by (symmetry; apply Z.leb_gt; lia).
  cbn. split; reflexivity.
Qed.

(** ** A confirmation for a tab that is not in [_tabs] *)

(** C9. When the tab is not in [self._tabs], [_cb_tab_shutdown] returns
    normally, logs the exception and leaves the state as it is; the tabs
    still waited for are the same, and as many. *)
Theorem cb_tab_shutdown_unknown_tab (s : State) (tab : Tab) :
  ~ In tab (_tabs s) ->
  let r := _cb_tab_shutdown tab s in
  value r = inl tt /\
  In (LogException tab) (effects r) /\
  final r = s /\
  List.length (_tabs (final r)) = List.length (_tabs s).
Proof.
  intros Hnot.
  assert (Hmem : mem tab (_tabs s) = false).
  { unfold mem. destruct (existsb (Nat.eqb tab) (_tabs s)) eqn:E; [|reflexivity].
    apply existsb_exists in E. destruct E as [x [Hin Hx]].
    apply Nat.eqb_eq in Hx. subst x. contradiction. }
  unfold _cb_tab_shutdown, try_except, tabs_remove, bind, get. cbn.
  rewrite Hmem. cbn.
  destruct (_tabs s) eqn:Et; cbn; (split; [reflexivity|]);
    (split; [left; reflexivity|]); (split; [reflexivity|]);
    rewrite Et; reflexivity.
Qed.
(** ** Switching between tabs *)

#[local] Arguments QTabWidget.setCurrentIndex : simpl never.

Lemma no_message_of_replays (l : list Effect) :
  (forall e, In e l -> exists t, e = CacheReplay t) ->
  forall text, ~ In (MessageError text) l.
Proof.
  intros H text Hin. destruct (H _ Hin) as [t Ht]. discriminate Ht.
Qed.

Lemma setCurrentIndex_moves (s : State) (i : Z) :
  0 <= i < Z.of_nat (List.length (pages s)) ->
  moves_to (QTabWidget.setCurrentIndex i s) s i.
Proof.
  intros Hi. apply valid_index_spec in Hi.
  destruct (setCurrentIndex_valid s i Hi) as (Hv & Hf & He).
  unfold moves_to. rewrite Hf. repeat split; trivial.
  now apply no_message_of_replays.
Qed.

Ltac by_setCurrentIndex :=
  match goal with
  | |- context [QTabWidget.setCurrentIndex ?i ?s] =>
      let Hm := fresh "Hm" in
      assert (Hm : moves_to (QTabWidget.setCurrentIndex i s) s i)
        by (apply setCurrentIndex_moves; lia);
      destruct Hm as (?Hv & ?Hf & ?Hc & ?He);
      unfold moves_to; cbn; rewrite ?app_nil_r;
      repeat split; assumption
  end.

(** C4. On a widget with pages, whose current index is in range, and for
    every count >= 1: [switch_next] moves the current index to
    [current + count] when that is below the number of pages; otherwise it
    moves it to [(current + count) mod count()] when wrapping is on, and
    reports "Last tab" and changes nothing when wrapping is off.
    [switch_prev] moves to [current - count] when that is not negative;
    otherwise to [(current - count) mod count()] when wrapping is on, and it
    reports "First tab" and changes nothing when wrapping is off. *)
Theorem switch_next_prev (s : State) (count : Z) :
  let n := Z.of_nat (List.length (pages s)) in
  0 <= current s < n -> 1 <= count ->
  (current s + count < n ->
     moves_to (switch_next count s) s (current s + count)) /\
  (n <= current s + count -> wrap (config s) = true ->
     moves_to (switch_next count s) s ((current s + count) mod n)) /\
  (n <= current s + count -> wrap (config s) = false ->
     switch_next count s = mkRun (inl tt) s [MessageError "Last tab"]) /\
  (0 <= current s - count ->
     moves_to (switch_prev count s) s (current s - count)) /\
  (current s - count < 0 -> wrap (config s) = true ->
     moves_to (switch_prev count s) s ((current s - count) mod n)) /\
  (current s - count < 0 -> wrap (config s) = false ->
     switch_prev count s = mkRun (inl tt) s [MessageError "First tab"]).
Proof.
  intros n Hcur Hcount. subst n.
  set (n := Z.of_nat (List.length (pages s))) in *.
  assert (Hmod : forall a, 0 <= a mod n < n)
    by (intros a; apply Z.mod_pos_bound; lia).
  assert (Hn0 : (n =? 0) = false) by (apply Z.eqb_neq; lia).
  unfold switch_next, switch_prev, QTabWidget.currentIndex, QTabWidget.count,
    config_get_wrap, py_mod, message_error, tell, bind, get. cbn. fold n.
  split; [|split; [|split; [|split; [|split]]]].
  - intros H. apply Z.ltb_lt in H. rewrite H. by_setCurrentIndex.
  - intros H Hw. apply Z.ltb_ge in H. rewrite H. cbn. rewrite Hw. cbn.
    fold n. rewrite Hn0. cbn. pose proof (Hmod (current s + count)).
    by_setCurrentIndex.
  - intros H Hw. apply Z.ltb_ge in H. rewrite H. cbn. rewrite Hw. reflexivity.
  - intros H. apply Z.leb_le in H. rewrite H. by_setCurrentIndex.
  - intros H Hw. apply Z.leb_gt in H. rewrite H. cbn. rewrite Hw. cbn.
    fold n. rewrite Hn0. cbn. pose proof (Hmod (current s - count)).
    by_setCurrentIndex.
  - intros H Hw. apply Z.leb_gt in H. rewrite H. cbn. rewrite Hw. reflexivity.
Qed.

(** ** Closing a tab *)

#[local] Arguments QTabWidget.removeTab : simpl never.
#[local] Arguments QTabWidget.currentChanged : simpl never.

Lemma currentChanged_run (s : State) (i : Z) :
  let r := QTabWidget.currentChanged i s in
  value r = inl tt /\ final r = s /\
  (forall e, In e (effects r) -> exists t, e = CacheReplay t).
Proof.
  unfold QTabWidget.currentChanged, QTabWidget.widget, bind, get. cbn.
  destruct (replay_connected s); cbn.
  - destruct (if QTabWidget.valid_index s i then _ else _); cbn;
      (split; [reflexivity | split; [reflexivity|]]).
    + intros e [<-|[]]. eauto.
    + intros e [].
  - split; [reflexivity | split; [reflexivity|]]. intros e [].
Qed.

Lemma remove_nth_length (i : nat) (l : list Tab) :
  (i < List.length l)%nat ->
  List.length (QTabWidget.remove_nth i l) = pred (List.length l).
Proof.
  intros H. unfold QTabWidget.remove_nth.
  rewrite length_app, length_firstn, length_skipn. lia.
Qed.

Ltac run_currentChanged :=
  match goal with
  | |- context [QTabWidget.currentChanged ?c ?s'] =>
      let Hv1 := fresh "Hv" in
      let Hf1 := fresh "Hf" in
      let He1 := fresh "He" in
      destruct (currentChanged_run s' c) as (Hv1 & Hf1 & He1);
      rewrite ?Hv1, ?Hf1; cbn; rewrite ?Hv1, ?Hf1;
      split; [reflexivity | split; [|exact He1]]
  end.

Lemma removeTab_valid (s : State) (i : Z) :
  QTabWidget.valid_index s i = true ->
  let r := QTabWidget.removeTab i s in
  let pages' := QTabWidget.remove_nth (Z.to_nat i) (pages s) in
  value r = inl tt /\
  (exists c, final r = set_current c (set_pages pages' s) /\
             (current_ok (pages s) (current s) -> current_ok pages' c)) /\
  (forall e, In e (effects r) -> exists t, e = CacheReplay t).
Proof.
  intros Hv. pose proof Hv as Hi. apply valid_index_spec in Hi.
  assert (Hlen : List.length (QTabWidget.remove_nth (Z.to_nat i) (pages s))
                 = pred (List.length (pages s)))
    by (apply remove_nth_length; lia).
  unfold QTabWidget.removeTab, bind, get, modify. cbn. rewrite Hv. cbn.
  set (pages' := QTabWidget.remove_nth (Z.to_nat i) (pages s)) in *.
  destruct (i =? current s) eqn:Ei; cbn.
  - destruct pages' as [|p ps] eqn:Ep; cbn.
    + run_currentChanged.
      exists (-1). split; [reflexivity|]. intros _. reflexivity.
    + run_currentChanged.
      eexists. split; [reflexivity|]. intros _. unfold current_ok.
      cbn [List.length] in *. lia.
  - destruct (i <? current s) eqn:El; cbn.
    + run_currentChanged.
      eexists. split; [reflexivity|]. apply Z.ltb_lt in El.
      unfold current_ok. destruct (pages s) as [|q qs] eqn:Eq;
        [cbn in Hi; lia|].
      intros Hc. destruct pages' as [|p ps]; cbn [List.length] in *; lia.
    + split; [reflexivity | split; [|intros e []]].
      exists (current s). split; [destruct s; reflexivity|].
      apply Z.ltb_ge in El. apply Z.eqb_neq in Ei.
      unfold current_ok. destruct (pages s) as [|q qs] eqn:Eq;
        [cbn in Hi; lia|].
      intros Hc. destruct pages' as [|p ps]; cbn [List.length] in *; lia.
Qed.

#[local] Arguments cntwidget : simpl never.

Lemma cntwidget_resolves (s : State) (count : option Z) (tab : Tab) :
  value (cntwidget count s) = inl (Some tab) ->
  cntwidget count s = mkRun (inl (Some tab)) s [] /\
  QTabWidget.valid_index s (close_index s count) = true /\
  nth_error (pages s) (Z.to_nat (close_index s count)) = Some tab.
Proof.
  unfold cntwidget, close_index, QTabWidget.currentWidget,
    QTabWidget.currentIndex, QTabWidget.count, QTabWidget.widget, bind, get.
  destruct count as [count|]; cbn.
  - destruct ((1 <=? count) && (count <=? Z.of_nat (List.length (pages s))));
      cbn; [|discriminate].
    destruct (QTabWidget.valid_index s (count - 1)); cbn; [|discriminate].
    intros H. injection H as H. rewrite H. auto.
  - destruct (QTabWidget.valid_index s (current s)); cbn; [|discriminate].
    intros H. injection H as H. rewrite H. auto.
Qed.

Lemma remove_nth_not_in (i : nat) (l : list Tab) (tab : Tab) :
  NoDup l -> nth_error l i = Some tab ->
  ~ In tab (QTabWidget.remove_nth i l).
Proof.
  intros Hnd Hnth. apply nth_error_split in Hnth.
  destruct Hnth as (l1 & l2 & -> & <-).
  unfold QTabWidget.remove_nth.
  rewrite firstn_app, Nat.sub_diag, firstn_all. cbn [firstn].
  rewrite app_nil_r.
  replace (S (List.length l1)) with (List.length (l1 ++ [tab]))
    by (rewrite length_app; cbn; lia).
  replace (l1 ++ tab :: l2) with ((l1 ++ [tab]) ++ l2)
    by (rewrite <- app_assoc; reflexivity).
  rewrite skipn_app, Nat.sub_diag, skipn_all. cbn.
  apply NoDup_remove_2 in Hnd. exact Hnd.
Qed.

Lemma emitted_app (sig : Signal) (l1 l2 : list Effect) :
  emitted sig (l1 ++ l2) = (emitted sig l1 + emitted sig l2)%nat.
Proof.
  induction l1 as [|e l1 IH]; [reflexivity|].
  destruct e; cbn; trivial. destruct sig, s; cbn; rewrite ?IH; reflexivity.
Qed.

Lemma emitted_replays (sig : Signal) (l : list Effect) :
  (forall e, In e l -> exists t, e = CacheReplay t) -> emitted sig l = 0%nat.
Proof.
  induction l as [|e l IH]; [reflexivity|]. intros H.
  destruct (H e (or_introl eq_refl)) as [t ->]. cbn.
  apply IH. intros e' He'. apply H. right. exact He'.
Qed.

(** C3. A close request that resolves to an open tab.  With more than one
    page, the tab's url is appended to the undo stack, its page is taken
    out of the widget and the tab is asked to shut down, its callback being
    kept.  With a single page and "quit", the signal [quit] is emitted once
    and nothing changes; with "blank" the tab is sent to about:blank and
    stays the only page.  Nothing is pushed onto the undo stack in these
    two cases. *)
Theorem tabclose_open_tab (s : State) (count : option Z) (tab : Tab) :
  NoDup (pages s) ->
  value (cntwidget count s) = inl (Some tab) ->
  let r := tabclose count s in
  let n := Z.of_nat (List.length (pages s)) in
  value r = inl tt /\
  (1 < n ->
     _url_stack (final r) = _url_stack s ++ [location s tab] /\
     pages (final r)
       = QTabWidget.remove_nth (Z.to_nat (close_index s count)) (pages s) /\
     ~ In tab (pages (final r)) /\
     Z.of_nat (List.length (pages (final r))) = n - 1 /\
     In (TabShutdown tab) (effects r) /\
     callbacks (final r) = callbacks s ++ [tab] /\
     emitted quit (effects r) = 0%nat) /\
  (n <= 1 -> last_close (config s) = "quit"%string ->
     r = mkRun (inl tt) s [Emit quit]) /\
  (n <= 1 -> last_close (config s) = "blank"%string ->
     effects r = [TabOpenurl tab about_blank] /\
     location (final r) tab = about_blank /\
     pages (final r) = pages s /\
     Z.of_nat (List.length (pages (final r))) = 1 /\
     _url_stack (final r) = _url_stack s).
Proof.
  intros Hnd Hres r n.
  destruct (cntwidget_resolves s count tab Hres) as (Hcnt & Hvalid & Hnth).
  pose proof Hvalid as Hrange. apply valid_index_spec in Hrange. fold n in Hrange.
  assert (Hidx : (match count with
                  | Some count => ret (count - 1)
                  | None => QTabWidget.currentIndex
                  end) s = mkRun (inl (close_index s count)) s []).
  { destruct count; reflexivity. }
  subst r. unfold tabclose, bind. rewrite Hidx. cbn. rewrite Hcnt. cbn.
  fold n.
  destruct (1 <? n) eqn:Hn.
  - apply Z.ltb_lt in Hn. cbn.
    destruct (removeTab_valid (set_url_stack (_url_stack s ++ [location s tab]) s)
                (close_index s count) Hvalid) as (Hv & (c & Hf & _) & He).
    cbn in Hf. rewrite Hv, Hf. cbn.
    split; [reflexivity|]. split; [|split; intros; lia].
    intros _. split; [reflexivity|]. split; [reflexivity|].
    split; [apply remove_nth_not_in; assumption|].
    split; [rewrite remove_nth_length; lia|].
    split; [apply in_or_app; right; left; reflexivity|].
    split; [reflexivity|].
    rewrite emitted_app. rewrite (emitted_replays _ _ He). reflexivity.
  - apply Z.ltb_ge in Hn. cbn.
    destruct (String.eqb (last_close (config s)) "quit") eqn:Eq.
    + cbn. split; [reflexivity|]. split; [intros; lia|].
      split; [reflexivity|].
      apply String.eqb_eq in Eq. rewrite Eq. discriminate.
    + destruct (String.eqb (last_close (config s)) "blank") eqn:Eb; cbn.
      * split; [reflexivity|]. split; [intros; lia|].
        split; [intros _ Hq; rewrite Hq in Eq; discriminate Eq|].
        intros _ _. rewrite Nat.eqb_refl. repeat split. lia.
      * split; [reflexivity|]. split; [intros; lia|].
        split; intros _ Hq; rewrite Hq in *; discriminate.
Qed.

(** ** Opening a tab *)

#[local] Arguments QTabWidget.setCurrentWidget : simpl never.
#[local] Arguments QTabWidget.addTab : simpl never.

Lemma bind_ok {A B} (m : M A) (f : A -> M B) (s s1 s2 : State) (a : A)
    (v : B + exn) (e1 e2 : list Effect) :
  m s = mkRun (inl a) s1 e1 -> f a s1 = mkRun v s2 e2 ->
  bind m f s = mkRun v s2 (e1 ++ e2).
Proof. intros H1 H2. unfold bind. rewrite H1. cbn. rewrite H2. reflexivity. Qed.

Lemma connect_run (tab : Tab) (sig : TabSignal) (target : Target) (s : State) :
  connect tab sig target s
  = mkRun (inl tt) (set_connections (connections s ++ [(tab, sig, target)]) s)
      [].
Proof. reflexivity. Qed.

Lemma connect_acc (tab : Tab) (sig : TabSignal) (target : Target)
    (s : State) (acc : list Connection) :
  connect tab sig target (set_connections (connections s ++ acc) s)
  = mkRun (inl tt)
      (set_connections (connections s ++ acc ++ [(tab, sig, target)]) s) [].
Proof.
  unfold connect, bind, get, modify. cbn. rewrite <- app_assoc. reflexivity.
Qed.

Lemma bind_silent {A B} (m : M A) (f : A -> M B) (s s1 : State) (a : A)
    (r : Run B) :
  m s = mkRun (inl a) s1 [] -> f a s1 = r -> bind m f s = r.
Proof.
  intros H1 H2. unfold bind. rewrite H1. cbn. rewrite H2.
  destruct r; reflexivity.
Qed.

Lemma connect_tab_signals_run (s : State) (tab : Tab) :
  _connect_tab_signals tab s
  = mkRun (inl tt) (set_connections (connections s ++ wiring tab) s) [].
Proof.
  assert (H0 : s = set_connections (connections s ++ []) s)
    by (rewrite app_nil_r; destruct s; reflexivity).
  rewrite H0 at 1. unfold _connect_tab_signals.
  repeat (eapply bind_silent; [apply connect_acc | cbv beta]).
  rewrite connect_acc. reflexivity.
Qed.

Lemma index_from_fresh (tab : Tab) (l : list Tab) (i : Z) :
  ~ In tab l ->
  QTabWidget.index_from tab (l ++ [tab]) i = i + Z.of_nat (List.length l).
Proof.
  revert i. induction l as [|t l IH]; intros i Hnot; cbn.
  - rewrite Nat.eqb_refl. lia.
  - destruct (Nat.eqb tab t) eqn:E.
    + apply Nat.eqb_eq in E. subst t. exfalso. apply Hnot. left. reflexivity.
    + rewrite IH by (intros H; apply Hnot; right; exact H). lia.
Qed.

Lemma addTab_run (s : State) (tab : Tab) :
  let r := QTabWidget.addTab tab s in
  value r = inl (Z.of_nat (List.length (pages s))) /\
  final r = set_current (match pages s with [] => 0 | _ :: _ => current s end)
              (set_pages (pages s ++ [tab]) s) /\
  (forall e, In e (effects r) -> exists t, e = CacheReplay t).
Proof.
  unfold QTabWidget.addTab, bind, get, modify. cbn.
  destruct (pages s) as [|p ps] eqn:Ep; cbn.
  - match goal with
    | |- context [QTabWidget.currentChanged ?c ?s'] =>
        destruct (currentChanged_run s' c) as (Hv & Hf & He)
    end.
    rewrite Hv. cbn. rewrite Hf, app_nil_r.
    split; [reflexivity | split; [reflexivity | exact He]].
  - split; [reflexivity | split; [|intros e []]].
    reflexivity.
Qed.

Lemma setCurrentWidget_fresh (s : State) (tab : Tab) (l : list Tab) :
  pages s = l ++ [tab] -> ~ In tab l ->
  let r := QTabWidget.setCurrentWidget tab s in
  value r = inl tt /\
  final r = set_current (Z.of_nat (List.length l)) s /\
  (forall e, In e (effects r) -> exists t, e = CacheReplay t).
Proof.
  intros Hp Hnot.
  unfold QTabWidget.setCurrentWidget, QTabWidget.indexOf, bind, get. cbn.
  rewrite Hp, index_from_fresh by assumption. rewrite Z.add_0_l.
  assert (Hv : QTabWidget.valid_index s (Z.of_nat (List.length l)) = true).
  { apply valid_index_spec. rewrite Hp, length_app. cbn. lia. }
  destruct (setCurrentIndex_valid s _ Hv) as (H1 & H2 & H3).
  rewrite H1, H2. auto.
Qed.

Lemma run_eq {A} (r : Run A) (v : A + exn) (s : State) (e : list Effect) :
  value r = v -> final r = s -> effects r = e -> r = mkRun v s e.
Proof. destruct r; cbn; intros; subst; reflexivity. Qed.

Lemma tabopen_run (s : State) (url : QUrl) (background : bool) :
  ~ In (next_tab s) (pages s) ->
  let r := tabopen url background s in
  let tab := next_tab s in
  value r = inl None /\
  final r = opened s url (opened_index s background) /\
  exists rep1 rep2,
    effects r = LogDebug (Opening url) :: rep1
                ++ TabShow tab :: TabOpenurl tab url :: rep2 /\
    (forall e, In e (rep1 ++ rep2) -> exists t, e = CacheReplay t).
Proof.
  intros Hfresh r tab.
  set (s3 := set_tabs (_tabs s ++ [tab])
               (set_connections (connections s ++ wiring tab)
                  (set_next_tab (S tab) s))).
  destruct (addTab_run s3 tab) as (Hv & Hf & He).
  set (s4 := set_current (match pages s with [] => 0 | _ :: _ => current s end)
               (set_pages (pages s ++ [tab]) s3)).
  set (s5 := set_location
               (fun t => if Nat.eqb t tab then url else location s t) s4).
  assert (Hlast : exists rep2,
             (if negb background then QTabWidget.setCurrentWidget tab
              else ret tt) s5
             = mkRun (inl tt) (set_current (opened_index s background) s5) rep2
             /\ forall e, In e rep2 -> exists t, e = CacheReplay t).
  { destruct background; cbn [negb].
    - exists []. split; [|intros e []].
      reflexivity.
    - destruct (setCurrentWidget_fresh s5 tab (pages s) eq_refl Hfresh)
        as (Hv2 & Hf2 & He2).
      exists (effects (QTabWidget.setCurrentWidget tab s5)).
      split; [|exact He2]. apply run_eq; [exact Hv2 | exact Hf2 | reflexivity]. }
  destruct Hlast as (rep2 & Hlast & He2).
  assert (Hrun : tabopen url background s
                 = mkRun (inl None)
                     (set_current (opened_index s background) s5)
                     (LogDebug (Opening url)
                      :: effects (QTabWidget.addTab tab s3)
                      ++ TabShow tab :: TabOpenurl tab url :: rep2)).
  { unfold tabopen, qurl.
    eapply eq_trans.
    - eapply bind_ok; [reflexivity|]. cbv beta.
      eapply bind_ok; [reflexivity|]. cbv beta.
      eapply bind_ok; [apply connect_tab_signals_run|]. cbv beta.
      eapply bind_ok; [reflexivity|]. cbv beta.
      eapply bind_ok; [reflexivity|]. cbv beta.
      eapply bind_ok;
        [apply run_eq; [exact Hv | exact Hf | reflexivity]|]. cbv beta.
      eapply bind_ok; [reflexivity|]. cbv beta.
      eapply bind_ok; [reflexivity|]. cbv beta.
      eapply bind_ok; [exact Hlast|]. cbv beta.
      reflexivity.
    - cbn [app]. rewrite ?app_nil_r. f_equal. }
  subst r. rewrite Hrun. cbn [value final effects].
  split; [reflexivity|]. split.
  - unfold opened, s5, s4, s3. reflexivity.
  - exists (effects (QTabWidget.addTab tab s3)), rep2.
    split; [reflexivity|].
    intros e Hin. apply in_app_or in Hin. destruct Hin; auto.
Qed.

(** C8 (as the code has it). [tabopen] creates a new tab, appends it to
    [_tabs] and to the pages, connects its signals (the seven per-tab event
    kinds through the signal filter), sends it to the url and returns
    [None], not the tab.  In the foreground the new tab becomes the
    current one.  In the background the current index stays as it is when
    there was a page before; the first page of an empty widget becomes
    current even then. *)
Theorem tabopen_opens_tab (s : State) (url : QUrl) (background : bool) :
  ~ In (next_tab s) (pages s) ->
  let r := tabopen url background s in
  let tab := next_tab s in
  value r = inl None /\
  next_tab (final r) = S tab /\
  _tabs (final r) = _tabs s ++ [tab] /\
  pages (final r) = pages s ++ [tab] /\
  connections (final r) = connections s ++ wiring tab /\
  In (TabOpenurl tab url) (effects r) /\
  location (final r) tab = url /\
  (background = false ->
     current (final r) = Z.of_nat (List.length (pages s)) /\
     nth_error (pages (final r)) (Z.to_nat (current (final r))) = Some tab) /\
  (background = true -> pages s <> [] -> current (final r) = current s) /\
  (background = true -> pages s = [] -> current (final r) = 0).
Proof.
  intros Hfresh r tab.
  destruct (tabopen_run s url background Hfresh)
    as (Hv & Hf & rep1 & rep2 & He & _).
  fold r in Hv, Hf, He. clearbody r. rewrite Hf, He. cbn.
  split; [exact Hv|]. do 4 (split; [reflexivity|]).
  split; [right; apply in_or_app; right; right; left; reflexivity|].
  split; [unfold tab; rewrite Nat.eqb_refl; reflexivity|].
  unfold opened_index. split; [|split].
  - intros ->. split; [reflexivity|].
    rewrite Nat2Z.id, nth_error_app2, Nat.sub_diag by lia. reflexivity.
  - intros -> Hne. destruct (pages s); [contradiction|reflexivity].
  - intros -> ->. reflexivity.
Qed.

(** ** The invariant of the widget *)

Lemma wf_nodup_all (s : State) : wf s -> NoDup (pages s ++ callbacks s).
Proof.
  intros H. eapply Permutation_NoDup; [apply (wf_split s H)|apply (wf_nodup s H)].
Qed.

Lemma wf_nodup_pages (s : State) : wf s -> NoDup (pages s).
Proof.
  intros H. apply wf_nodup_all in H. apply NoDup_app_remove_r in H. exact H.
Qed.

Lemma wf_next_tab_fresh (s : State) : wf s -> ~ In (next_tab s) (pages s).
Proof.
  intros H Hin.
  assert (Hlt : (next_tab s < next_tab s)%nat); [|lia].
  apply (wf_fresh s H).
  apply (Permutation_in _ (Permutation_sym (wf_split s H))).
  apply in_or_app. left. exact Hin.
Qed.

Lemma wf_init (c : Config) : wf (init c).
Proof.
  constructor; cbn.
  - reflexivity.
  - constructor.
  - constructor.
  - intros t [].
Qed.

Lemma wf_set_current (s : State) (c : Z) :
  wf s -> current_ok (pages s) c -> wf (set_current c s).
Proof.
  intros [H1 H2 H3 H4] Hc. constructor; cbn; assumption.
Qed.

Lemma wf_tabopen (s : State) (url : QUrl) (background : bool) :
  wf s -> wf (final (tabopen url background s)).
Proof.
  intros Hwf.
  destruct (tabopen_run s url background (wf_next_tab_fresh s Hwf))
    as (_ & Hf & _).
  rewrite Hf. destruct Hwf as [H1 H2 H3 H4].
  constructor; cbn.
  - unfold opened_index, current_ok in *.
    destruct (pages s) as [|p ps] eqn:Ep, background;
      cbn [app List.length] in *; rewrite ?length_app;
      cbn [List.length]; lia.
  - apply NoDup_app; [exact H2| repeat constructor; intros []|].
    intros t Ht [<-|[]]. apply H4 in Ht. lia.
  - rewrite <- app_assoc.
    apply Permutation_trans with ((pages s ++ callbacks s) ++ [next_tab s]).
    + apply Permutation_app_tail. exact H3.
    + rewrite <- app_assoc. apply Permutation_app_head.
      apply Permutation_app_comm.
  - intros t Ht. apply in_app_or in Ht. destruct Ht as [Ht|[<-|[]]].
    + apply H4 in Ht. lia.
    + lia.
Qed.

Lemma tabclose_many (s : State) (count : option Z) (tab : Tab) :
  value (cntwidget count s) = inl (Some tab) ->
  1 < Z.of_nat (List.length (pages s)) ->
  let r := tabclose count s in
  let i := close_index s count in
  value r = inl tt /\
  (exists c, final r = closed s i tab c /\
             (current_ok (pages s) (current s) ->
              current_ok (QTabWidget.remove_nth (Z.to_nat i) (pages s)) c)) /\
  (exists rep, effects r = rep ++ [TabShutdown tab] /\
               forall e, In e rep -> exists t, e = CacheReplay t).
Proof.
  intros Hres Hn r i.
  destruct (cntwidget_resolves s count tab Hres) as (Hcnt & Hvalid & Hnth).
  assert (Hidx : (match count with
                  | Some count => ret (count - 1)
                  | None => QTabWidget.currentIndex
                  end) s = mkRun (inl (close_index s count)) s []).
  { destruct count; reflexivity. }
  subst r. unfold tabclose, bind. rewrite Hidx. cbn. rewrite Hcnt. cbn.
  apply Z.ltb_lt in Hn. rewrite Hn. cbn.
  destruct (removeTab_valid (set_url_stack (_url_stack s ++ [location s tab]) s)
              (close_index s count) Hvalid) as (Hv & (c & Hf & Hc) & He).
  cbn in Hf, Hc. rewrite Hv, Hf. cbn.
  split; [reflexivity|]. split.
  - exists c. split; [reflexivity | exact Hc].
  - eexists. split; [reflexivity | exact He].
Qed.

Lemma tabclose_last (s : State) (count : option Z) (tab : Tab) :
  value (cntwidget count s) = inl (Some tab) ->
  Z.of_nat (List.length (pages s)) <= 1 ->
  let r := tabclose count s in
  value r = inl tt /\
  (final r = s \/
   final r = set_location
               (fun t => if Nat.eqb t tab then about_blank else location s t) s).
Proof.
  intros Hres Hn r.
  destruct (cntwidget_resolves s count tab Hres) as (Hcnt & Hvalid & Hnth).
  assert (Hidx : (match count with
                  | Some count => ret (count - 1)
                  | None => QTabWidget.currentIndex
                  end) s = mkRun (inl (close_index s count)) s []).
  { destruct count; reflexivity. }
  subst r. unfold tabclose, bind. rewrite Hidx. cbn. rewrite Hcnt. cbn.
  apply Z.ltb_ge in Hn. rewrite Hn. cbn.
  destruct (String.eqb (last_close (config s)) "quit"); cbn; [auto|].
  destruct (String.eqb (last_close (config s)) "blank"); cbn; auto.
Qed.

Lemma tabclose_unresolved (s : State) (count : option Z) :
  value (cntwidget count s) = inl None ->
  tabclose count s = mkRun (inl tt) s [].
Proof.
  intros Hres.
  assert (Hcnt : cntwidget count s = mkRun (inl None) s []).
  { revert Hres. unfold cntwidget, QTabWidget.currentWidget,
      QTabWidget.currentIndex, QTabWidget.count, QTabWidget.widget, bind, get.
    destruct count as [count|]; cbn.
    - destruct ((1 <=? count) && (count <=? Z.of_nat (List.length (pages s))));
        cbn; intros H; [|reflexivity].
      injection H as H. rewrite H. reflexivity.
    - intros H. injection H as H. rewrite H. reflexivity. }
  assert (Hidx : (match count with
                  | Some count => ret (count - 1)
                  | None => QTabWidget.currentIndex
                  end) s = mkRun (inl (close_index s count)) s []).
  { destruct count; reflexivity. }
  unfold tabclose, bind. rewrite Hidx. cbn. rewrite Hcnt. reflexivity.
Qed.

Lemma cntwidget_value (s : State) (count : option Z) :
  exists w, value (cntwidget count s) = inl w.
Proof.
  unfold cntwidget, QTabWidget.currentWidget, QTabWidget.currentIndex,
    QTabWidget.count, QTabWidget.widget, bind, get.
  destruct count as [count|]; cbn.
  - destruct ((1 <=? count) && (count <=? Z.of_nat (List.length (pages s))));
      cbn; eauto.
  - eauto.
Qed.

Lemma remove_nth_perm (i : nat) (l : list Tab) (tab : Tab) :
  nth_error l i = Some tab ->
  Permutation l (tab :: QTabWidget.remove_nth i l).
Proof.
  intros Hnth. apply nth_error_split in Hnth.
  destruct Hnth as (l1 & l2 & -> & <-).
  unfold QTabWidget.remove_nth.
  rewrite firstn_app, Nat.sub_diag, firstn_all. cbn [firstn].
  rewrite app_nil_r.
  replace (S (List.length l1)) with (List.length (l1 ++ [tab]))
    by (rewrite length_app; cbn; lia).
  replace (l1 ++ tab :: l2) with ((l1 ++ [tab]) ++ l2)
    by (rewrite <- app_assoc; reflexivity).
  rewrite skipn_app, Nat.sub_diag, skipn_all. cbn.
  rewrite <- app_assoc. cbn. symmetry. apply Permutation_middle.
Qed.

Lemma wf_tabclose (s : State) (count : option Z) :
  wf s -> wf (final (tabclose count s)).
Proof.
  intros Hwf. destruct (cntwidget_value s count) as [[tab|] Hres].
  - destruct (Z_lt_le_dec 1 (Z.of_nat (List.length (pages s)))) as [Hn|Hn].
    + destruct (tabclose_many s count tab Hres Hn) as (_ & (c & Hf & Hc) & _).
      destruct (cntwidget_resolves s count tab Hres) as (_ & _ & Hnth).
      rewrite Hf. destruct Hwf as [H1 H2 H3 H4].
      constructor; cbn; auto.
      apply Permutation_trans with (1 := H3).
      apply Permutation_trans
        with ((tab :: QTabWidget.remove_nth
                        (Z.to_nat (close_index s count)) (pages s))
              ++ callbacks s).
      * apply Permutation_app_tail. apply remove_nth_perm. exact Hnth.
      * cbn. rewrite app_assoc.
        apply Permutation_cons_append.
    + destruct (tabclose_last s count tab Hres Hn) as (_ & [Hf|Hf]);
        rewrite Hf; [exact Hwf|].
      destruct Hwf as [H1 H2 H3 H4]. constructor; cbn; assumption.
  - rewrite (tabclose_unresolved s count Hres). exact Hwf.
Qed.

(** ** Facts about [remove_first] *)

Lemma mem_spec (x : Tab) (l : list Tab) : mem x l = true <-> In x l.
Proof.
  unfold mem. rewrite existsb_exists. split.
  - intros (y & Hin & Hy). apply Nat.eqb_eq in Hy. subst y. exact Hin.
  - intros Hin. exists x. split; [exact Hin | apply Nat.eqb_refl].
Qed.

Lemma remove_first_perm (x : Tab) (l : list Tab) :
  In x l -> Permutation l (x :: remove_first x l).
Proof.
  induction l as [|y l IH]; intros Hin; [destruct Hin|].
  cbn. destruct (Nat.eqb x y) eqn:E.
  - apply Nat.eqb_eq in E. subst y. reflexivity.
  - destruct Hin as [->|Hin]; [rewrite Nat.eqb_refl in E; discriminate|].
    apply Permutation_trans with (y :: x :: remove_first x l).
    + constructor. apply IH. exact Hin.
    + constructor.
Qed.

Lemma remove_first_notin (x : Tab) (l : list Tab) :
  ~ In x l -> remove_first x l = l.
Proof.
  induction l as [|y l IH]; intros Hnot; [reflexivity|].
  cbn. destruct (Nat.eqb x y) eqn:E.
  - apply Nat.eqb_eq in E. subst y. exfalso. apply Hnot. left. reflexivity.
  - f_equal. apply IH. intros H. apply Hnot. right. exact H.
Qed.

Lemma remove_first_app_r (x : Tab) (l1 l2 : list Tab) :
  ~ In x l1 -> remove_first x (l1 ++ l2) = l1 ++ remove_first x l2.
Proof.
  induction l1 as [|y l1 IH]; intros Hnot; [reflexivity|].
  cbn. destruct (Nat.eqb x y) eqn:E.
  - apply Nat.eqb_eq in E. subst y. exfalso. apply Hnot. left. reflexivity.
  - f_equal. apply IH. intros H. apply Hnot. right. exact H.
Qed.

Lemma remove_first_nodup (x : Tab) (l : list Tab) :
  NoDup l -> NoDup (remove_first x l) /\ ~ In x (remove_first x l).
Proof.
  intros Hnd. destruct (in_dec Nat.eq_dec x l) as [Hin|Hnot].
  - pose proof (remove_first_perm x l Hin) as Hp.
    pose proof (Permutation_NoDup Hp Hnd) as Hnd'.
    inversion Hnd'; subst. auto.
  - rewrite remove_first_notin by assumption. auto.
Qed.

Lemma remove_first_perm_both (x : Tab) (l l' : list Tab) :
  Permutation l l' -> In x l ->
  Permutation (remove_first x l) (remove_first x l').
Proof.
  intros Hp Hin.
  apply Permutation_cons_inv with x.
  apply Permutation_trans with l; [symmetry; apply remove_first_perm; exact Hin|].
  apply Permutation_trans with l'; [exact Hp|].
  apply remove_first_perm. apply (Permutation_in _ Hp Hin).
Qed.

(** ** A confirmation for a tab that is in [_tabs] *)

Lemma cb_tab_shutdown_known (s : State) (tab : Tab) :
  In tab (_tabs s) ->
  let r := _cb_tab_shutdown tab s in
  value r = inl tt /\
  final r = set_tabs (remove_first tab (_tabs s)) s /\
  emitted shutdown_complete (effects r)
  = match remove_first tab (_tabs s) with [] => 1%nat | _ :: _ => 0%nat end.
Proof.
  intros Hin. apply mem_spec in Hin.
  unfold _cb_tab_shutdown, try_except, tabs_remove, bind, get, modify. cbn.
  rewrite Hin. cbn.
  destruct (remove_first tab (_tabs s)); cbn; auto.
Qed.

#[local] Arguments _cb_tab_shutdown : simpl never.

Lemma confirm_known (s : State) (tab : Tab) :
  In tab (_tabs s) ->
  let r := confirm tab s in
  value r = inl tt /\
  final r = set_tabs (remove_first tab (_tabs s))
              (set_callbacks (remove_first tab (callbacks s)) s) /\
  emitted shutdown_complete (effects r)
  = match remove_first tab (_tabs s) with [] => 1%nat | _ :: _ => 0%nat end.
Proof.
  intros Hin. unfold confirm, bind, get, modify. cbn.
  destruct (cb_tab_shutdown_known
              (set_callbacks (remove_first tab (callbacks s)) s) tab Hin)
    as (Hv & Hf & He).
  cbn in Hf, He. rewrite Hv, Hf, He. auto.
Qed.

Lemma wf_confirm (s : State) (tab : Tab) :
  wf s -> In tab (callbacks s) -> wf (final (confirm tab s)).
Proof.
  intros Hwf Hcb. pose proof (wf_nodup_all s Hwf) as Hnd.
  destruct Hwf as [H1 H2 H3 H4].
  assert (Hin : In tab (_tabs s)).
  { apply (Permutation_in _ (Permutation_sym H3)). apply in_or_app. auto. }
  assert (Hnp : ~ In tab (pages s)).
  { (* a page is never also waited for *)
    intros Hp. apply in_split in Hp. destruct Hp as (l1 & l2 & Hp).
    rewrite Hp, <- app_assoc in Hnd. cbn in Hnd.
    apply NoDup_remove_2 in Hnd. apply Hnd.
    apply in_or_app. right. apply in_or_app. right. exact Hcb. }
  destruct (confirm_known s tab Hin) as (_ & Hf & _). rewrite Hf.
  constructor; cbn.
  - exact H1.
  - apply remove_first_nodup. exact H2.
  - rewrite <- remove_first_app_r by exact Hnp.
    apply remove_first_perm_both; assumption.
  - intros t Ht. apply H4.
    destruct (in_dec Nat.eq_dec tab (_tabs s)) as [Hi|Hi];
      [|rewrite remove_first_notin in Ht; assumption].
    apply (Permutation_in _ (Permutation_sym (remove_first_perm tab _ Hi))).
    right. exact Ht.
Qed.

(** ** Reopening a closed tab *)

#[local] Arguments tabopen : simpl never.

Lemma rev_snoc (l : list QUrl) (u : QUrl) : rev (l ++ [u]) = u :: rev l.
Proof. rewrite rev_app_distr. reflexivity. Qed.

(** [undo_close] on a stack that ends in [u] is [tabopen(u)] on the rest of
    the stack. *)
Lemma url_stack_pop_run (s : State) (stack : list QUrl) (u : QUrl) :
  _url_stack s = stack ++ [u] ->
  url_stack_pop s = mkRun (inl u) (set_url_stack stack s) [].
Proof.
  intros Hs. unfold url_stack_pop, bind, get, modify. cbn.
  rewrite Hs, rev_snoc. cbn. rewrite rev_involutive. reflexivity.
Qed.

Lemma bind_step {A B} (m : M A) (f : A -> M B) (s s1 : State) (a : A)
    (e1 : list Effect) :
  m s = mkRun (inl a) s1 e1 ->
  bind m f s
  = mkRun (value (f a s1)) (final (f a s1)) (e1 ++ effects (f a s1)).
Proof. intros H. unfold bind. rewrite H. reflexivity. Qed.

Lemma undo_close_pops (s : State) (stack : list QUrl) (u : QUrl) :
  _url_stack s = stack ++ [u] ->
  undo_close s = (tabopen u false ;; ret tt) (set_url_stack stack s).
Proof.
  intros Hs. pose proof (url_stack_pop_run s stack u Hs) as Hpop.
  unfold undo_close.
  rewrite (bind_step get _ s s s [] eq_refl). cbv beta.
  destruct (_url_stack s) as [|x xs] eqn:E.
  - destruct stack; discriminate Hs.
  - rewrite (bind_step _ _ _ _ _ _ Hpop). cbv beta.
    generalize ((tabopen u false ;; ret tt) (set_url_stack stack s)).
    intros [v f e]. reflexivity.
Qed.

Lemma undo_close_empty (s : State) :
  _url_stack s = [] ->
  undo_close s = mkRun (inl tt) s [MessageError "Nothing to undo!"].
Proof.
  intros Hs. unfold undo_close, message_error, bind, get, tell. cbn.
  rewrite Hs. reflexivity.
Qed.

Lemma wf_set_url_stack (s : State) (stack : list QUrl) :
  wf s -> wf (set_url_stack stack s).
Proof. intros [H1 H2 H3 H4]. constructor; cbn; assumption. Qed.

Lemma snoc_cases {A} (l : list A) : l = [] \/ exists l' x, l = l' ++ [x].
Proof.
  destruct l as [|a l]; [left; reflexivity|right].
  destruct (exists_last (l := a :: l)) as (l' & x & H); [discriminate|].
  eauto.
Qed.

Lemma wf_undo_close (s : State) : wf s -> wf (final (undo_close s)).
Proof.
  intros Hwf. destruct (snoc_cases (_url_stack s)) as [Hs|(stack & u & Hs)].
  - rewrite (undo_close_empty s Hs). exact Hwf.
  - rewrite (undo_close_pops s stack u Hs).
    pose proof (wf_tabopen (set_url_stack stack s) u false
                  (wf_set_url_stack s stack Hwf)) as H.
    revert H. unfold bind.
    generalize (tabopen u false (set_url_stack stack s)).
    intros [[v|e] f eff] H; exact H.
Qed.

(** ** Switching keeps the invariant *)

Lemma setCurrentIndex_final (s : State) (i : Z) :
  final (QTabWidget.setCurrentIndex i s) = s \/
  (QTabWidget.valid_index s i = true /\
   final (QTabWidget.setCurrentIndex i s) = set_current i s).
Proof.
  destruct (QTabWidget.valid_index s i) eqn:Hv.
  - right. split; [reflexivity|]. apply (setCurrentIndex_valid s i Hv).
  - left. unfold QTabWidget.setCurrentIndex, bind, get. cbn. rewrite Hv.
    reflexivity.
Qed.

Lemma wf_setCurrentIndex (s : State) (i : Z) :
  wf s -> wf (final (QTabWidget.setCurrentIndex i s)).
Proof.
  intros Hwf. destruct (setCurrentIndex_final s i) as [->|[Hv ->]];
    [exact Hwf|].
  apply wf_set_current; [exact Hwf|].
  apply valid_index_spec in Hv. unfold current_ok.
  destruct (pages s); [cbn in Hv; lia | exact Hv].
Qed.

Lemma wf_switch_next (s : State) (count : Z) :
  wf s -> wf (final (switch_next count s)).
Proof.
  intros Hwf.
  unfold switch_next, QTabWidget.currentIndex, QTabWidget.count,
    config_get_wrap, py_mod, message_error, tell, bind, get. cbn.
  destruct (current s + count <? Z.of_nat (List.length (pages s))).
  - apply wf_setCurrentIndex; exact Hwf.
  - cbn. destruct (wrap (config s)); cbn; [|exact Hwf].
    destruct (Z.of_nat (List.length (pages s)) =? 0); cbn; [exact Hwf|].
    apply wf_setCurrentIndex; exact Hwf.
Qed.

Lemma wf_switch_prev (s : State) (count : Z) :
  wf s -> wf (final (switch_prev count s)).
Proof.
  intros Hwf.
  unfold switch_prev, QTabWidget.currentIndex, QTabWidget.count,
    config_get_wrap, py_mod, message_error, tell, bind, get. cbn.
  destruct (0 <=? current s - count).
  - apply wf_setCurrentIndex; exact Hwf.
  - cbn. destruct (wrap (config s)); cbn; [|exact Hwf].
    destruct (Z.of_nat (List.length (pages s)) =? 0); cbn; [exact Hwf|].
    apply wf_setCurrentIndex; exact Hwf.
Qed.

(** ** The undo stack *)

Lemma undo_close_reopens (s : State) (stack : list QUrl) (u : QUrl) :
  wf s -> _url_stack s = stack ++ [u] ->
  reopened (undo_close s) s u /\ _url_stack (final (undo_close s)) = stack.
Proof.
  intros Hwf Hs.
  assert (Hfresh : ~ In (next_tab (set_url_stack stack s))
                        (pages (set_url_stack stack s)))
    by (apply wf_next_tab_fresh, wf_set_url_stack, Hwf).
  pose proof (tabopen_run (set_url_stack stack s) u false Hfresh) as H.
  cbv zeta in H.
  rewrite (undo_close_pops s stack u Hs). unfold reopened, bind, ret.
  revert H. generalize (tabopen u false (set_url_stack stack s)).
  intros [v f eff]. cbn [value final effects].
  intros (Hv & Hf & rep1 & rep2 & He & _). subst v f eff.
  cbn [value final effects opened _tabs pages location _url_stack current
       next_tab set_url_stack opened_index].
  split; [|reflexivity].
  split; [reflexivity|]. split; [reflexivity|]. split; [reflexivity|].
  split; [rewrite app_nil_r; right; apply in_or_app; right; right; left;
          reflexivity|].
  split; [rewrite Nat.eqb_refl; reflexivity|].
  rewrite Nat2Z.id, nth_error_app2, Nat.sub_diag by lia. reflexivity.
Qed.

(** C5. The undo stack is last in, first out.  After closing tab A and then
    tab B, each time with more than one page open, the first [undo_close]
    opens a new foreground tab at B's location and the second one at A's,
    which leaves the stack as it was before the two closes.  On an empty
    stack [undo_close] reports "Nothing to undo!" and changes nothing. *)
Theorem undo_close_lifo (s : State) (ca cb : option Z) (A B : Tab) :
  wf s ->
  value (cntwidget ca s) = inl (Some A) ->
  1 < Z.of_nat (List.length (pages s)) ->
  let s1 := final (tabclose ca s) in
  value (cntwidget cb s1) = inl (Some B) ->
  1 < Z.of_nat (List.length (pages s1)) ->
  let s2 := final (tabclose cb s1) in
  let r3 := undo_close s2 in
  let r4 := undo_close (final r3) in
  reopened r3 s2 (location s1 B) /\
  reopened r4 (final r3) (location s A) /\
  _url_stack (final r4) = _url_stack s /\
  (_url_stack s = [] ->
   undo_close (final r4)
   = mkRun (inl tt) (final r4) [MessageError "Nothing to undo!"]) /\
  (forall s', _url_stack s' = [] ->
   undo_close s' = mkRun (inl tt) s' [MessageError "Nothing to undo!"]).
Proof.
  intros Hwf HA Hn s1 HB Hn1 s2 r3 r4.
  pose proof (wf_tabclose s ca Hwf) as Hwf1. fold s1 in Hwf1.
  pose proof (wf_tabclose s1 cb Hwf1) as Hwf2. fold s2 in Hwf2.
  destruct (tabclose_many s ca A HA Hn) as (_ & (c1 & Hf1 & _) & _).
  fold s1 in Hf1.
  destruct (tabclose_many s1 cb B HB Hn1) as (_ & (c2 & Hf2 & _) & _).
  fold s2 in Hf2.
  assert (Hst2 : _url_stack s2
                 = (_url_stack s ++ [location s A]) ++ [location s1 B]).
  { rewrite Hf2. cbn. rewrite Hf1. reflexivity. }
  destruct (undo_close_reopens s2 _ _ Hwf2 Hst2) as (Hr3 & Hst3).
  fold r3 in Hr3, Hst3.
  pose proof (wf_undo_close s2 Hwf2) as Hwf3. fold r3 in Hwf3.
  destruct (undo_close_reopens (final r3) _ _ Hwf3 Hst3) as (Hr4 & Hst4).
  fold r4 in Hr4, Hst4.
  split; [exact Hr3|]. split; [exact Hr4|]. split; [exact Hst4|].
  split.
  - intros He. apply undo_close_empty. rewrite Hst4. exact He.
  - apply undo_close_empty.
Qed.

(** ** Shutdown *)

Lemma disconnect_run (s : State) :
  try_except currentChanged_disconnect TypeError (ret tt) s
  = mkRun (inl tt) (set_replay_connected false s) [].
Proof.
  unfold try_except, currentChanged_disconnect, bind, get, modify. cbn.
  destruct (replay_connected s) eqn:E; cbn; [reflexivity|].
  f_equal. destruct s; cbn in *; subst; reflexivity.
Qed.

Lemma count_run (s : State) :
  QTabWidget.count s = mkRun (inl (Z.of_nat (List.length (pages s)))) s [].
Proof. reflexivity. Qed.

Lemma skipn_nth_cons (l : list Tab) (k : nat) :
  (k < List.length l)%nat ->
  exists t, nth_error l k = Some t /\ skipn k l = t :: skipn (S k) l.
Proof.
  revert l. induction k as [|k IH]; intros [|x l] Hk; cbn in Hk; try lia.
  - exists x. auto.
  - destruct (IH l) as (t & H1 & H2); [lia|]. exists t. auto.
Qed.

Lemma shutdown_tab_run (tabcount : Z) (k : nat) (s : State) (t : Tab) :
  nth_error (pages s) k = Some t ->
  shutdown_tab tabcount (Z.of_nat k) s
  = mkRun (inl tt) (set_callbacks (callbacks s ++ [t]) s)
      [LogDebug (ShuttingDownTab (Z.of_nat k) tabcount); TabShutdown t].
Proof.
  intros Hnth.
  assert (Hk : (k < List.length (pages s))%nat)
    by (apply nth_error_Some; rewrite Hnth; discriminate).
  assert (Hvalid : QTabWidget.valid_index s (Z.of_nat k) = true)
    by (apply valid_index_spec; lia).
  assert (Hw : QTabWidget.widget (Z.of_nat k) s = mkRun (inl (Some t)) s []).
  { unfold QTabWidget.widget, bind, get, ret. cbn.
    rewrite Hvalid, Nat2Z.id, Hnth. reflexivity. }
  unfold shutdown_tab.
  eapply eq_trans.
  - eapply bind_ok; [reflexivity|]. cbv beta.
    eapply bind_ok; [exact Hw|]. cbv beta. reflexivity.
  - reflexivity.
Qed.

Lemma shutdown_loop (tabcount : Z) (m k : nat) (s : State) :
  (k + m = List.length (pages s))%nat ->
  exists eff,
    for_each (map Z.of_nat (seq k m)) (shutdown_tab tabcount) s
    = mkRun (inl tt) (set_callbacks (callbacks s ++ skipn k (pages s)) s) eff /\
    (forall sig, emitted sig eff = 0%nat) /\
    (forall t, In t (skipn k (pages s)) -> In (TabShutdown t) eff).
Proof.
  revert k s. induction m as [|m IH]; intros k s Hkm.
  - exists []. cbn [seq map for_each]. rewrite skipn_all2 by lia.
    rewrite app_nil_r.
    split; [unfold ret; f_equal; destruct s; reflexivity|].
    split; [reflexivity | intros t []].
  - destruct (skipn_nth_cons (pages s) k) as (t & Hnth & Hskip); [lia|].
    destruct (IH (S k) (set_callbacks (callbacks s ++ [t]) s))
      as (eff & Hrun & He & Hin); [cbn; lia|].
    cbn [callbacks pages set_callbacks] in Hrun, Hin.
    exists ([LogDebug (ShuttingDownTab (Z.of_nat k) tabcount); TabShutdown t]
            ++ eff).
    split; [|split].
    + cbn [seq map for_each].
      rewrite (bind_ok _ _ _ _ _ _ _ _ _
                 (shutdown_tab_run tabcount k s t Hnth) Hrun).
      rewrite Hskip, <- app_assoc. reflexivity.
    + intros sig. rewrite emitted_app, He. reflexivity.
    + intros t' Ht'. rewrite Hskip in Ht'. apply in_or_app.
      destruct Ht' as [<-|Ht']; [left; right; left; reflexivity|].
      right. apply Hin. exact Ht'.
Qed.

Lemma shutdown_fans_out (s : State) :
  pages s <> [] ->
  exists eff,
    shutdown s = mkRun (inl tt)
                   (set_callbacks (callbacks s ++ pages s)
                      (set_replay_connected false s)) eff /\
    (forall sig, emitted sig eff = 0%nat) /\
    (forall t, In t (pages s) -> In (TabShutdown t) eff).
Proof.
  intros Hne.
  destruct (shutdown_loop (Z.of_nat (List.length (pages s)))
              (List.length (pages s)) 0 (set_replay_connected false s) eq_refl)
    as (eff & Hrun & He & Hin).
  cbn [callbacks pages set_replay_connected skipn] in Hrun, Hin.
  unfold shutdown_tab in Hrun.
  exists eff. split; [|split; assumption].
  unfold shutdown.
  rewrite (bind_step _ _ _ _ _ _ (disconnect_run s)). cbv beta.
  rewrite (bind_step _ _ _ _ _ _ (count_run (set_replay_connected false s))).
  cbv beta. cbn [pages set_replay_connected].
  destruct (Z.of_nat (List.length (pages s)) =? 0) eqn:E.
  - apply Z.eqb_eq in E. destruct (pages s); [contradiction|cbn in E; lia].
  - unfold range. rewrite Nat2Z.id, Hrun. reflexivity.
Qed.

Lemma shutdown_empty (s : State) :
  pages s = [] ->
  shutdown s = mkRun (inl tt) (set_replay_connected false s)
                 [LogDebug NoTabsShutdownComplete; Emit shutdown_complete].
Proof.
  intros Hp. unfold shutdown.
  rewrite (bind_step _ _ _ _ _ _ (disconnect_run s)). cbv beta.
  rewrite (bind_step _ _ _ _ _ _ (count_run (set_replay_connected false s))).
  cbv beta. cbn [pages set_replay_connected]. rewrite Hp. reflexivity.
Qed.

#[local] Arguments confirm : simpl never.

(** The confirmations [pre] have arrived, those of [post] have not: the
    signal has been emitted once if nothing is left to wait for, and not at
    all otherwise. *)
Lemma confirm_all_emits (pre post : list Tab) (s : State) :
  NoDup (_tabs s) -> Permutation (pre ++ post) (_tabs s) ->
  let r := confirm_all pre s in
  value r = inl tt /\
  emitted shutdown_complete (effects r)
  = match pre, post with
    | _ :: _, [] => 1%nat
    | _, _ => 0%nat
    end.
Proof.
  revert s. induction pre as [|t pre IH]; intros s Hnd Hperm.
  - cbn. destruct post; auto.
  - assert (Hin : In t (_tabs s))
      by (apply (Permutation_in _ Hperm); left; reflexivity).
    destruct (confirm_known s t Hin) as (Hv & Hf & He).
    assert (Hperm' : Permutation (pre ++ post) (remove_first t (_tabs s))).
    { apply Permutation_cons_inv with t.
      apply Permutation_trans with (1 := Hperm).
      apply remove_first_perm. exact Hin. }
    unfold confirm_all. cbn [for_each]. unfold bind.
    rewrite Hv. cbn [value final effects]. rewrite Hf.
    destruct (IH (set_tabs (remove_first t (_tabs s))
                   (set_callbacks (remove_first t (callbacks s)) s)))
      as (Hv' & He').
    + cbn. apply remove_first_nodup. exact Hnd.
    + cbn. exact Hperm'.
    + unfold confirm_all in Hv', He'. rewrite Hv'.
      split; [reflexivity|].
      rewrite emitted_app, He, He'.
      destruct (remove_first t (_tabs s)) as [|x xs] eqn:Er.
      * apply Permutation_sym, Permutation_nil in Hperm'.
        apply app_eq_nil in Hperm'. destruct Hperm' as [-> ->]. reflexivity.
      * destruct pre as [|p pre'], post as [|q post']; try reflexivity.
        apply Permutation_nil in Hperm'. discriminate.
Qed.

(** C1. Shutdown is started with at least one page open.  The callbacks
    then waited for are those of the pages and those of the tabs closed
    before, whose confirmation was still outstanding.  Take the
    confirmations in any order and stop after any number of them: the
    signal [shutdown_complete] has been emitted once if every confirmation
    has arrived, and not at all if one is still missing. *)
Theorem shutdown_complete_exactly_once (s : State) (pre post : list Tab) :
  wf s -> pages s <> [] ->
  Permutation (pre ++ post) (callbacks (final (shutdown s))) ->
  let r := (shutdown ;; confirm_all pre) s in
  value r = inl tt /\
  emitted shutdown_complete (effects r)
  = match post with
    | [] => 1%nat
    | _ :: _ => 0%nat
    end.
Proof.
  intros Hwf Hne Hperm. cbv zeta.
  destruct (shutdown_fans_out s Hne) as (eff & Hrun & He & _).
  rewrite Hrun in Hperm. cbn [final callbacks set_callbacks] in Hperm.
  assert (Htabs : Permutation (pre ++ post) (_tabs s)).
  { apply Permutation_trans with (1 := Hperm).
    apply Permutation_trans with (pages s ++ callbacks s);
      [apply Permutation_app_comm|].
    symmetry. apply (wf_split s Hwf). }
  pose proof (confirm_all_emits pre post
                (set_callbacks (callbacks s ++ pages s)
                   (set_replay_connected false s))
                (wf_nodup s Hwf) Htabs) as H.
  cbv zeta in H. destruct H as (Hv' & He').
  rewrite (bind_step _ _ _ _ _ _ Hrun). cbv beta. cbn [value effects].
  split; [exact Hv'|].
  rewrite emitted_app, He, He'. cbn [Nat.add].
  destruct pre as [|p pre'], post as [|q post']; try reflexivity.
  exfalso. cbn in Htabs. apply Permutation_nil in Htabs.
  pose proof (wf_split s Hwf) as Hs. rewrite Htabs in Hs.
  apply Permutation_nil in Hs. destruct (pages s); [contradiction|].
  discriminate Hs.
Qed.

(** ** Shutdown after shutdown *)

Lemma cb_tab_shutdown_total (s : State) (tab : Tab) :
  value (_cb_tab_shutdown tab s) = inl tt /\
  exists tabs, final (_cb_tab_shutdown tab s) = set_tabs tabs s.
Proof.
  destruct (in_dec Nat.eq_dec tab (_tabs s)) as [Hin|Hnot].
  - destruct (cb_tab_shutdown_known s tab Hin) as (Hv & Hf & _). eauto.
  - assert (Hmem : mem tab (_tabs s) = false).
    { destruct (mem tab (_tabs s)) eqn:E; [|reflexivity].
      apply mem_spec in E. contradiction. }
    unfold _cb_tab_shutdown, try_except, tabs_remove, bind, get. cbn.
    rewrite Hmem. cbn.
    destruct (_tabs s) eqn:Et; cbn; (split; [reflexivity|]);
      exists (_tabs s); destruct s; cbn in *; subst; reflexivity.
Qed.

(** Confirmations touch [_tabs] and the callbacks, nothing else. *)
Lemma confirm_total (s : State) (t : Tab) :
  exists tabs cbs eff,
    confirm t s = mkRun (inl tt) (set_tabs tabs (set_callbacks cbs s)) eff.
Proof.
  destruct (cb_tab_shutdown_total
              (set_callbacks (remove_first t (callbacks s)) s) t)
    as (Hv & tabs & Hf).
  exists tabs, (remove_first t (callbacks s)).
  exists (effects (_cb_tab_shutdown t
                     (set_callbacks (remove_first t (callbacks s)) s))).
  unfold confirm.
  rewrite (bind_step get _ s s s [] eq_refl). cbv beta.
  rewrite (bind_step (modify _) _ s _ tt [] eq_refl). cbv beta.
  rewrite Hv, Hf. reflexivity.
Qed.

Lemma confirm_all_frame (order : list Tab) (s : State) :
  exists tabs cbs,
    final (confirm_all order s) = set_tabs tabs (set_callbacks cbs s).
Proof.
  revert s. induction order as [|t order IH]; intros s.
  - exists (_tabs s), (callbacks s). destruct s; reflexivity.
  - destruct (confirm_total s t) as (tabs & cbs & eff & Hrun).
    destruct (IH (set_tabs tabs (set_callbacks cbs s))) as (tabs' & cbs' & Hf').
    exists tabs', cbs'.
    unfold confirm_all in *. cbn [for_each].
    rewrite (bind_step _ _ _ _ _ _ Hrun). cbv beta. cbn [final].
    rewrite Hf'. reflexivity.
Qed.

Lemma confirm_all_tabs (pre post : list Tab) (s : State) :
  NoDup (_tabs s) -> Permutation (pre ++ post) (_tabs s) ->
  Permutation post (_tabs (final (confirm_all pre s))).
Proof.
  revert s. induction pre as [|t pre IH]; intros s Hnd Hperm.
  - exact Hperm.
  - assert (Hin : In t (_tabs s))
      by (apply (Permutation_in _ Hperm); left; reflexivity).
    destruct (confirm_known s t Hin) as (Hv & Hf & _).
    unfold confirm_all. cbn [for_each]. unfold bind.
    rewrite Hv. cbn [value final effects]. rewrite Hf.
    apply IH; cbn.
    + apply remove_first_nodup. exact Hnd.
    + apply Permutation_cons_inv with t.
      apply Permutation_trans with (1 := Hperm).
      apply remove_first_perm. exact Hin.
Qed.

Lemma shutdown_run (s : State) :
  value (shutdown s) = inl tt /\
  final (shutdown s)
  = match pages s with
    | [] => set_replay_connected false s
    | _ :: _ => set_callbacks (callbacks s ++ pages s)
                  (set_replay_connected false s)
    end.
Proof.
  destruct (pages s) as [|p ps] eqn:Ep.
  - rewrite (shutdown_empty s Ep). auto.
  - destruct (shutdown_fans_out s) as (eff & Hrun & _); [congruence|].
    rewrite Hrun. cbn [value final]. rewrite Ep. auto.
Qed.

Lemma bind_final {A B} (m : M A) (f : A -> M B) (s : State) (a : A) :
  value (m s) = inl a -> final (bind m f s) = final (f a (final (m s))).
Proof. intros H. unfold bind. rewrite H. reflexivity. Qed.

Lemma shutdown_disconnected (D : State) :
  replay_connected D = false ->
  value (shutdown D) = inl tt /\
  _tabs (final (shutdown D)) = _tabs D /\
  pages (final (shutdown D)) = pages D /\
  current (final (shutdown D)) = current D /\
  _url_stack (final (shutdown D)) = _url_stack D /\
  (pages D = [] ->
     final (shutdown D) = D /\
     effects (shutdown D)
     = [LogDebug NoTabsShutdownComplete; Emit shutdown_complete]) /\
  (pages D <> [] ->
     emitted shutdown_complete (effects (shutdown D)) = 0%nat /\
     callbacks (final (shutdown D)) = callbacks D ++ pages D /\
     forall t, In t (pages D) -> In (TabShutdown t) (effects (shutdown D))).
Proof.
  intros Hrc.
  assert (Hsame : set_replay_connected false D = D)
    by (destruct D; cbn in *; subst; reflexivity).
  destruct (pages D) as [|p ps] eqn:Ep.
  - rewrite (shutdown_empty D Ep), Hsame. cbn [value final effects].
    rewrite Ep. repeat (split; [reflexivity|]).
    split; [intros _; split; reflexivity|]. intros H. contradiction.
  - assert (Hne : pages D <> []) by (rewrite Ep; discriminate).
    destruct (shutdown_fans_out D Hne) as (eff & Hrun & He & Hin).
    rewrite Hrun, Hsame. cbn [value final effects _tabs pages current
                              _url_stack callbacks set_callbacks].
    rewrite Ep in *. repeat (split; [reflexivity|]).
    split; [intros H; discriminate H|]. intros _.
    split; [apply He|]. split; [reflexivity | exact Hin].
Qed.

(** C2 (as the code has it). After a completed shutdown, with every
    confirmation delivered, a second [shutdown] leaves [_tabs], the pages,
    the current index and the undo stack alone, but it is no no-op: the
    widget keeps no record of the shutdown.  Without pages it emits
    [shutdown_complete] again; with pages it asks each of them to shut down
    again and waits for their callbacks. *)
Theorem shutdown_again_after_complete (s : State) (order : list Tab) :
  wf s ->
  Permutation order (callbacks (final (shutdown s))) ->
  let done := final ((shutdown ;; confirm_all order) s) in
  let r := shutdown done in
  _tabs done = [] /\
  value r = inl tt /\
  _tabs (final r) = _tabs done /\ pages (final r) = pages done /\
  current (final r) = current done /\
  _url_stack (final r) = _url_stack done /\
  (pages done = [] ->
     final r = done /\
     effects r = [LogDebug NoTabsShutdownComplete; Emit shutdown_complete]) /\
  (pages done <> [] ->
     emitted shutdown_complete (effects r) = 0%nat /\
     callbacks (final r) = callbacks done ++ pages done /\
     forall t, In t (pages done) -> In (TabShutdown t) (effects r)).
Proof.
  intros Hwf Hperm. cbv zeta.
  destruct (shutdown_run s) as (Hv & Hf).
  pose proof (bind_final shutdown (fun _ => confirm_all order) s tt Hv)
    as Hdone.
  destruct (confirm_all_frame order (final (shutdown s))) as (tabs & cbs & Hfr).
  assert (Hrc : replay_connected (final ((shutdown;; confirm_all order) s))
                = false).
  { rewrite Hdone, Hfr, Hf. destruct (pages s); reflexivity. }
  assert (Htabs : _tabs (final ((shutdown;; confirm_all order) s)) = []).
  { assert (Hp : Permutation (order ++ []) (_tabs (final (shutdown s)))).
    { rewrite app_nil_r. apply Permutation_trans with (1 := Hperm).
      rewrite Hf. destruct (pages s) as [|p ps] eqn:Ep; cbn.
      - pose proof (wf_split s Hwf) as Hs. rewrite Ep in Hs. symmetry. exact Hs.
      - apply Permutation_trans with (pages s ++ callbacks s);
          [rewrite Ep; apply Permutation_app_comm|].
        symmetry. apply (wf_split s Hwf). }
    assert (Hnd : NoDup (_tabs (final (shutdown s)))).
    { rewrite Hf. destruct (pages s); cbn; apply (wf_nodup s Hwf). }
    pose proof (confirm_all_tabs order [] _ Hnd Hp) as Hq.
    rewrite <- Hdone in Hq. apply Permutation_nil in Hq. exact Hq. }
  split; [exact Htabs|].
  apply shutdown_disconnected. exact Hrc.
Qed.

(** ** The states the widget can be in before shutdown *)

Lemma reachable_wf (c : Config) (s : State) : reachable c s -> wf s.
Proof.
  induction 1 as [|s cmd Hr IH Hp].
  - apply wf_init.
  - destruct cmd; cbn.
    + apply wf_tabopen, IH.
    + apply wf_tabclose, IH.
    + apply wf_undo_close, IH.
    + apply wf_switch_next, IH.
    + apply wf_switch_prev, IH.
    + apply wf_confirm; [exact IH | exact Hp].
Qed.


(** ** Examples *)

Lemma three_tabs_reachable : reachable quit_config three_tabs.
Proof. repeat (apply reachable_step; [|exact I]). apply reachable_init. Defined.

Lemma one_tab_reachable : reachable blank_config one_tab.
Proof. apply reachable_step; [|exact I]. apply reachable_init. Defined.

Lemma one_closed_reachable : reachable quit_config one_closed.
Proof. apply reachable_step; [|exact I]. apply three_tabs_reachable. Defined.

Lemma three_tabs_wf : wf three_tabs.
Proof. exact (reachable_wf _ _ three_tabs_reachable). Qed.

Lemma one_closed_wf : wf one_closed.
Proof. exact (reachable_wf _ _ one_closed_reachable). Qed.

Ltac not_in_list :=
  let H := fresh "H" in
  intros H; apply mem_spec in H; revert H; vm_compute; discriminate.

(** A bad index on three tabs. *)
Lemma tabclose_out_of_range_noop_witness :
  tabclose (Some 4) three_tabs = mkRun (inl tt) three_tabs [].
Proof.
  apply (tabclose_out_of_range_noop three_tabs 4).
  change (~ (1 <= 4 <= 3)). lia.
Defined.

Lemma shutdown_no_tabs_witness :
  effects (shutdown (init quit_config))
  = [LogDebug NoTabsShutdownComplete; Emit shutdown_complete].
Proof.
  pose proof (shutdown_no_tabs (init quit_config) eq_refl) as H.
  cbv zeta in H. destruct H as (_ & H & _). exact H.
Defined.

Lemma switch_empty_wrap_raises_witness :
  value (switch_next 3 (init quit_config)) = inr ZeroDivisionError /\
  value (switch_prev 3 (init quit_config)) = inr ZeroDivisionError.
Proof.
  apply (switch_empty_wrap_raises (init quit_config) 3);
    [reflexivity | reflexivity | reflexivity | lia].
Defined.

Lemma cb_tab_shutdown_unknown_tab_witness :
  value (_cb_tab_shutdown 7%nat three_tabs) = inl tt /\
  final (_cb_tab_shutdown 7%nat three_tabs) = three_tabs.
Proof.
  assert (Hnot : ~ In 7%nat (_tabs three_tabs)) by not_in_list.
  pose proof (cb_tab_shutdown_unknown_tab three_tabs 7%nat Hnot) as H.
  cbv zeta in H. destruct H as (H1 & _ & H2 & _). split; assumption.
Defined.

(** Seven tabs on from the first of three is the second; seven back is the
    third. *)
Lemma switch_next_prev_witness :
  current (final (switch_next 7 three_tabs)) = 1 /\
  current (final (switch_prev 7 three_tabs)) = 2.
Proof.
  assert (Hcur : 0 <= current three_tabs
                 < Z.of_nat (List.length (pages three_tabs)))
    by (change (0 <= 0 < 3); lia).
  assert (Hcount : 1 <= 7) by lia.
  pose proof (switch_next_prev three_tabs 7 Hcur Hcount) as H.
  cbv zeta in H. destruct H as (_ & Hn & _ & _ & Hp & _).
  split.
  - apply Hn; [change (3 <= 0 + 7); lia | reflexivity].
  - apply Hp; [change (0 - 7 < 0); lia | reflexivity].
Defined.

Lemma tabclose_open_tab_witness :
  _url_stack (final (tabclose (Some 2) three_tabs)) = ["http://b"%string] /\
  ~ In 1%nat (pages (final (tabclose (Some 2) three_tabs))).
Proof.
  assert (Hnd : NoDup (pages three_tabs))
    by (apply wf_nodup_pages, three_tabs_wf).
  assert (Hres : value (cntwidget (Some 2) three_tabs) = inl (Some 1%nat))
    by reflexivity.
  pose proof (tabclose_open_tab three_tabs (Some 2) 1%nat Hnd Hres) as H.
  cbv zeta in H. destruct H as (_ & H & _).
  assert (Hn : 1 < Z.of_nat (List.length (pages three_tabs)))
    by (change (1 < 3); lia).
  destruct (H Hn) as (H1 & _ & H2 & _). split; [exact H1 | exact H2].
Defined.

Lemma tabopen_opens_tab_witness :
  value (tabopen "http://d"%string true three_tabs) = inl None /\
  pages (final (tabopen "http://d"%string true three_tabs))
  = [0; 1; 2; 3]%nat.
Proof.
  assert (Hfresh : ~ In (next_tab three_tabs) (pages three_tabs))
    by not_in_list.
  pose proof (tabopen_opens_tab three_tabs "http://d"%string true Hfresh) as H.
  cbv zeta in H. destruct H as (H1 & _ & _ & H2 & _). split; assumption.
Defined.

(** Close the second of three tabs, then the current, first one: the first
    undo reopens the first tab's location, the second undo the second's. *)
Lemma undo_close_lifo_witness :
  let s1 := final (tabclose (Some 2) three_tabs) in
  let s2 := final (tabclose None s1) in
  let r3 := undo_close s2 in
  let r4 := undo_close (final r3) in
  reopened r3 s2 "http://a"%string /\ reopened r4 (final r3) "http://b"%string.
Proof.
  intros s1 s2 r3 r4.
  assert (HA : value (cntwidget (Some 2) three_tabs) = inl (Some 1%nat))
    by reflexivity.
  assert (Hn : 1 < Z.of_nat (List.length (pages three_tabs)))
    by (change (1 < 3); lia).
  assert (HB : value (cntwidget None s1) = inl (Some 0%nat)) by reflexivity.
  assert (Hn1 : 1 < Z.of_nat (List.length (pages s1)))
    by (change (1 < 2); lia).
  pose proof (undo_close_lifo three_tabs (Some 2) None 1%nat 0%nat
                three_tabs_wf HA Hn HB Hn1) as H.
  cbv zeta in H. destruct H as (H3 & H4 & _). split; [exact H3 | exact H4].
Defined.

(** Two pages and one closed tab still to be confirmed; the confirmations
    arrive in the order 2, 1, 0. *)
Lemma shutdown_complete_exactly_once_witness :
  emitted shutdown_complete
    (effects ((shutdown ;; confirm_all [2; 1; 0]%nat) one_closed)) = 1%nat /\
  emitted shutdown_complete
    (effects ((shutdown ;; confirm_all [2; 1]%nat) one_closed)) = 0%nat.
Proof.
  assert (Hne : pages one_closed <> []) by (vm_compute; discriminate).
  assert (Hall : Permutation ([2; 1; 0]%nat ++ [])
                   (callbacks (final (shutdown one_closed)))).
  { change (Permutation [2; 1; 0]%nat [1; 0; 2]%nat).
    eapply perm_trans; [apply perm_swap | apply perm_skip, perm_swap]. }
  assert (Hpart : Permutation ([2; 1]%nat ++ [0%nat])
                    (callbacks (final (shutdown one_closed)))).
  { change (Permutation [2; 1; 0]%nat [1; 0; 2]%nat).
    eapply perm_trans; [apply perm_swap | apply perm_skip, perm_swap]. }
  split.
  - apply (shutdown_complete_exactly_once one_closed [2; 1; 0]%nat []
             one_closed_wf Hne Hall).
  - apply (shutdown_complete_exactly_once one_closed [2; 1]%nat [0%nat]
             one_closed_wf Hne Hpart).
Defined.

Lemma shutdown_again_after_complete_witness :
  _tabs (final ((shutdown ;; confirm_all [2; 1; 0]%nat) one_closed)) = [] /\
  value (shutdown (final ((shutdown ;; confirm_all [2; 1; 0]%nat) one_closed)))
  = inl tt.
Proof.
  assert (Hall : Permutation [2; 1; 0]%nat
                   (callbacks (final (shutdown one_closed)))).
  { change (Permutation [2; 1; 0]%nat [1; 0; 2]%nat).
    eapply perm_trans; [apply perm_swap | apply perm_skip, perm_swap]. }
  pose proof (shutdown_again_after_complete one_closed [2; 1; 0]%nat
                one_closed_wf Hall) as H.
  cbv zeta in H. destruct H as (H1 & H2 & _). split; assumption.
Defined.

(** ** Where the code differs *)

(** C2, as stated, fails.  (a) On a widget without tabs the first
    [shutdown] completes at once, and a second one emits
    [shutdown_complete] again.  (b) With one tab, shut down and confirmed,
    the signal has been emitted and [_tabs] is empty; a second [shutdown]
    asks the tab to shut down again and hands out a callback. *)
Lemma shutdown_again_counterexample :
  let done0 := final (shutdown (init quit_config)) in
  let run1 := (shutdown ;; confirm_all [0%nat]) one_tab in
  let done1 := final run1 in
  (effects (shutdown done0)
   = [LogDebug NoTabsShutdownComplete; Emit shutdown_complete]) /\
  (emitted shutdown_complete (effects run1) = 1%nat /\
   _tabs done1 = [] /\ callbacks done1 = [] /\
   effects (shutdown done1)
   = [LogDebug (ShuttingDownTab 0 1); TabShutdown 0%nat] /\
   callbacks (final (shutdown done1)) = [0%nat] /\
   final (shutdown done1) <> done1).
Proof.
  cbv zeta. split; [reflexivity|].
  do 5 (split; [reflexivity|]).
  intros H. apply (f_equal callbacks) in H. revert H. vm_compute. discriminate.
Qed.

(** C8, as stated, fails.  [tabopen] returns [None] and not the new tab;
    and a tab opened in the background into an empty widget becomes the
    current one. *)
Lemma tabopen_counterexample :
  let s := init quit_config in
  value (tabopen "http://a"%string false s) = inl None /\
  value (tabopen "http://a"%string false s) <> inl (Some (next_tab s)) /\
  current s = -1 /\
  current (final (tabopen "http://a"%string true s)) = 0.
Proof.
  cbv zeta. split; [reflexivity|]. split; [|split; reflexivity].
  vm_compute. discriminate.
Qed.

(** ** Further properties of the widget *)

(** X1. In every state the commands can reach, the current index is [-1]
    and there is no page, or it is the index of a page. *)
Theorem reachable_active_index (c : Config) (s : State) :
  reachable c s ->
  (pages s = [] /\ current s = -1) \/
  0 <= current s < Z.of_nat (List.length (pages s)).
Proof.
  intros Hr. apply reachable_wf in Hr. destruct Hr as [H _ _ _].
  unfold current_ok in H. destruct (pages s); auto.
Qed.

Lemma reachable_active_index_witness :
  (pages one_closed = [] /\ current one_closed = -1) \/
  0 <= current one_closed < Z.of_nat (List.length (pages one_closed)).
Proof.
  apply (reachable_active_index quit_config one_closed).
  apply one_closed_reachable.
Defined.

(** X2. In every reachable state no tab is twice in [_tabs]; [_tabs] holds
    exactly the pages and the closed tabs whose shutdown is not confirmed
    yet; and the identity of the next tab object is not in use. *)
Theorem reachable_tabs_bookkeeping (c : Config) (s : State) :
  reachable c s ->
  NoDup (_tabs s) /\
  Permutation (_tabs s) (pages s ++ callbacks s) /\
  ~ In (next_tab s) (_tabs s).
Proof.
  intros Hr. apply reachable_wf in Hr. destruct Hr as [_ H2 H3 H4].
  split; [exact H2|]. split; [exact H3|].
  intros Hin. apply H4 in Hin. lia.
Qed.

Lemma reachable_tabs_bookkeeping_witness :
  NoDup (_tabs one_closed) /\
  Permutation (_tabs one_closed) (pages one_closed ++ callbacks one_closed) /\
  ~ In (next_tab one_closed) (_tabs one_closed).
Proof.
  apply (reachable_tabs_bookkeeping quit_config one_closed).
  apply one_closed_reachable.
Defined.

(** X3. [tabclose] never takes the last page away and never raises: a
    widget with pages still has pages afterwards, and at most one less. *)
Theorem tabclose_keeps_a_page (s : State) (count : option Z) :
  pages s <> [] ->
  let s' := final (tabclose count s) in
  value (tabclose count s) = inl tt /\
  pages s' <> [] /\
  (List.length (pages s') = List.length (pages s) \/
   S (List.length (pages s')) = List.length (pages s)).
Proof.
  intros Hne. cbv zeta.
  destruct (cntwidget_value s count) as [[tab|] Hres].
  - destruct (Z_lt_le_dec 1 (Z.of_nat (List.length (pages s)))) as [Hn|Hn].
    + destruct (tabclose_many s count tab Hres Hn) as (Hv & (c & Hf & _) & _).
      destruct (cntwidget_resolves s count tab Hres) as (_ & Hvalid & _).
      apply valid_index_spec in Hvalid.
      rewrite Hv, Hf. cbn [pages closed].
      assert (Hlen : List.length (QTabWidget.remove_nth
                                    (Z.to_nat (close_index s count)) (pages s))
                     = pred (List.length (pages s)))
        by (apply remove_nth_length; lia).
      split; [reflexivity|]. split.
      * intros H. rewrite H in Hlen. cbn in Hlen. lia.
      * right. rewrite Hlen. lia.
    + destruct (tabclose_last s count tab Hres Hn) as (Hv & [Hf|Hf]);
        rewrite Hv, Hf; cbn [pages set_location]; auto.
  - rewrite (tabclose_unresolved s count Hres). cbn [value final]. auto.
Qed.

Lemma tabclose_keeps_a_page_witness :
  pages (final (tabclose None one_tab)) <> [].
Proof.
  assert (Hne : pages one_tab <> []) by (vm_compute; discriminate).
  pose proof (tabclose_keeps_a_page one_tab None Hne) as H.
  cbv zeta in H. destruct H as (_ & H & _). exact H.
Defined.

(** X4. On the last page, when [last_close] is neither "quit" nor "blank",
    [tabclose] does nothing: no signal, no message, same state. *)
Theorem tabclose_last_other_policy (s : State) (count : option Z) (tab : Tab) :
  value (cntwidget count s) = inl (Some tab) ->
  Z.of_nat (List.length (pages s)) <= 1 ->
  last_close (config s) <> "quit"%string ->
  last_close (config s) <> "blank"%string ->
  tabclose count s = mkRun (inl tt) s [].
Proof.
  intros Hres Hn Hq Hb.
  destruct (cntwidget_resolves s count tab Hres) as (Hcnt & _ & _).
  assert (Hidx : (match count with
                  | Some count => ret (count - 1)
                  | None => QTabWidget.currentIndex
                  end) s = mkRun (inl (close_index s count)) s []).
  { destruct count; reflexivity. }
  apply String.eqb_neq in Hq. apply String.eqb_neq in Hb.
  apply Z.ltb_ge in Hn.
  unfold tabclose.
  rewrite (bind_step _ _ _ _ _ _ Hidx). cbv beta.
  rewrite (bind_step _ _ _ _ _ _ Hcnt). cbv beta.
  rewrite (bind_step config_get_last_close _ s s _ [] eq_refl). cbv beta.
  rewrite (bind_step _ _ _ _ _ _ (count_run s)). cbv beta.
  rewrite Hn, Hq, Hb. reflexivity.
Qed.

Lemma tabclose_last_other_policy_witness :
  let s := init (mkConfig "keep" false) in
  let s1 := final (tabopen "http://a"%string false s) in
  tabclose None s1 = mkRun (inl tt) s1 [].
Proof.
  cbv zeta.
  apply (tabclose_last_other_policy _ None 0%nat).
  - vm_compute. reflexivity.
  - vm_compute. discriminate.
  - vm_compute. discriminate.
  - vm_compute. discriminate.
Defined.

(** X5. A confirmation that arrives when [_tabs] is empty already, such as
    a second report after the shutdown has completed, is logged as not
    removable and makes the widget emit [shutdown_complete] again. *)
Theorem cb_tab_shutdown_on_empty (s : State) (tab : Tab) :
  _tabs s = [] ->
  _cb_tab_shutdown tab s
  = mkRun (inl tt) s
      [LogException tab; LogDebug (TabsAfterRemoving []);
       LogDebug TabShutdownComplete; Emit shutdown_complete].
Proof.
  intros He. destruct s as [tabs stack pgs cur rc conns loc nt cbs cfg].
  cbn in He. subst tabs. reflexivity.
Qed.

Lemma cb_tab_shutdown_on_empty_witness :
  emitted shutdown_complete
    (effects (_cb_tab_shutdown 0%nat (init quit_config))) = 1%nat.
Proof.
  rewrite (cb_tab_shutdown_on_empty (init quit_config) 0%nat eq_refl).
  reflexivity.
Defined.

(** X6. Before shutdown, the confirmation of a closed tab never makes the
    widget emit [shutdown_complete] as long as a page is open: the pages
    stay in [_tabs].  The confirmed tab leaves [_tabs]; the pages are not
    touched. *)
Theorem confirm_closed_tab_silent (c : Config) (s : State) (tab : Tab) :
  reachable c s -> pages s <> [] -> In tab (callbacks s) ->
  let r := confirm tab s in
  value r = inl tt /\
  emitted shutdown_complete (effects r) = 0%nat /\
  pages (final r) = pages s /\
  ~ In tab (_tabs (final r)).
Proof.
  intros Hr Hne Hcb. cbv zeta. apply reachable_wf in Hr.
  pose proof (wf_nodup_all s Hr) as Hnd.
  pose proof (wf_split s Hr) as Hsplit.
  pose proof (wf_nodup s Hr) as Hnd_tabs.
  assert (Hin : In tab (_tabs s)).
  { apply (Permutation_in _ (Permutation_sym Hsplit)).
    apply in_or_app. auto. }
  destruct (pages s) as [|p ps] eqn:Ep; [contradiction|].
  assert (Hp : In p (_tabs s)).
  { apply (Permutation_in _ (Permutation_sym Hsplit)). left. reflexivity. }
  assert (Hpt : p <> tab).
  { intros ->. cbn in Hnd. inversion Hnd as [|x l Hnot _]; subst.
    apply Hnot. apply in_or_app. auto. }
  destruct (confirm_known s tab Hin) as (Hv & Hf & He).
  rewrite Hv, Hf, He. cbn [pages set_tabs set_callbacks _tabs].
  split; [reflexivity|]. split; [|split].
  - pose proof (Permutation_in _ (remove_first_perm tab _ Hin) Hp) as H.
    destruct H as [H|H]; [congruence|].
    destruct (remove_first tab (_tabs s)); [destruct H | reflexivity].
  - exact Ep.
  - apply remove_first_nodup. exact Hnd_tabs.
Qed.

Lemma confirm_closed_tab_silent_witness :
  emitted shutdown_complete (effects (confirm 1%nat one_closed)) = 0%nat.
Proof.
  assert (Hne : pages one_closed <> []) by (vm_compute; discriminate).
  assert (Hm : mem 1%nat (callbacks one_closed) = true)
    by (vm_compute; reflexivity).
  pose proof (proj1 (mem_spec _ _) Hm) as Hcb.
  pose proof (confirm_closed_tab_silent quit_config one_closed 1%nat
                one_closed_reachable Hne Hcb) as H.
  cbv zeta in H. destruct H as (_ & H & _). exact H.
Defined.


Lemma wrap_run (s : State) :
  config_get_wrap s = mkRun (inl (wrap (config s))) s [].
Proof. reflexivity. Qed.

Lemma currentIndex_run (s : State) :
  QTabWidget.currentIndex s = mkRun (inl (current s)) s [].
Proof. reflexivity. Qed.

Lemma run_eta {A} (r : Run A) : mkRun (value r) (final r) (effects r) = r.
Proof. destruct r; reflexivity. Qed.

(** [switch_next] and [switch_prev], branch by branch. *)
Lemma switch_next_cases (s : State) (count : Z) :
  let n := Z.of_nat (List.length (pages s)) in
  switch_next count s
  = if current s + count <? n
    then QTabWidget.setCurrentIndex (current s + count) s
    else if wrap (config s)
         then if n =? 0 then mkRun (inr ZeroDivisionError) s []
              else QTabWidget.setCurrentIndex ((current s + count) mod n) s
         else mkRun (inl tt) s [MessageError "Last tab"].
Proof.
  cbv zeta. unfold switch_next.
  rewrite (bind_step _ _ _ _ _ _ (currentIndex_run s)). cbv beta zeta.
  rewrite (bind_step _ _ _ _ _ _ (count_run s)). cbv beta.
  destruct (current s + count <? Z.of_nat (List.length (pages s))).
  - cbn [app]. apply run_eta.
  - rewrite (bind_step _ _ _ _ _ _ (wrap_run s)). cbv beta.
    destruct (wrap (config s)); [|reflexivity].
    rewrite (bind_step _ _ _ _ _ _ (count_run s)). cbv beta.
    unfold py_mod.
    destruct (Z.of_nat (List.length (pages s)) =? 0); [reflexivity|].
    rewrite (bind_step (ret _) _ s s _ [] eq_refl). cbv beta.
    cbn [app]. rewrite run_eta. cbn [value final effects app]. apply run_eta.
Qed.

Lemma switch_prev_cases (s : State) (count : Z) :
  let n := Z.of_nat (List.length (pages s)) in
  switch_prev count s
  = if 0 <=? current s - count
    then QTabWidget.setCurrentIndex (current s - count) s
    else if wrap (config s)
         then if n =? 0 then mkRun (inr ZeroDivisionError) s []
              else QTabWidget.setCurrentIndex ((current s - count) mod n) s
         else mkRun (inl tt) s [MessageError "First tab"].
Proof.
  cbv zeta. unfold switch_prev.
  rewrite (bind_step _ _ _ _ _ _ (currentIndex_run s)). cbv beta zeta.
  destruct (0 <=? current s - count).
  - cbn [app]. apply run_eta.
  - rewrite (bind_step _ _ _ _ _ _ (wrap_run s)). cbv beta.
    destruct (wrap (config s)); [|reflexivity].
    rewrite (bind_step _ _ _ _ _ _ (count_run s)). cbv beta.
    unfold py_mod.
    destruct (Z.of_nat (List.length (pages s)) =? 0); [reflexivity|].
    rewrite (bind_step (ret _) _ s s _ [] eq_refl). cbv beta.
    cbn [app]. rewrite run_eta. cbn [value final effects app]. apply run_eta.
Qed.



Lemma setCurrentIndex_disconnected (s : State) (i : Z) :
  replay_connected s = false -> effects (QTabWidget.setCurrentIndex i s) = [].
Proof.
  intros Hrc.
  unfold QTabWidget.setCurrentIndex, QTabWidget.currentChanged, bind, get.
  cbn. destruct (QTabWidget.valid_index s i && negb (i =? current s)); cbn;
    [|reflexivity].
  rewrite Hrc. reflexivity.
Qed.

(** X8. [shutdown] disconnects [currentChanged]: switching tabs after it
    replays no signal cache. *)
Theorem no_replay_after_shutdown (s : State) (count : Z) :
  existsb is_replay (effects (switch_next count (final (shutdown s)))) = false
  /\
  existsb is_replay (effects (switch_prev count (final (shutdown s)))) = false.
Proof.
  assert (Hrc : replay_connected (final (shutdown s)) = false).
  { destruct (shutdown_run s) as (_ & Hf). rewrite Hf.
    destruct (pages s); reflexivity. }
  revert Hrc. generalize (final (shutdown s)). intros d Hrc.
  pose proof (switch_next_cases d count) as Hnext.
  pose proof (switch_prev_cases d count) as Hprev.
  cbv zeta in Hnext, Hprev. rewrite Hnext, Hprev.
  split.
  - destruct (current d + count <? _);
      [rewrite setCurrentIndex_disconnected by exact Hrc; reflexivity|].
    destruct (wrap (config d)); [|reflexivity].
    destruct (_ =? 0); [reflexivity|].
    rewrite setCurrentIndex_disconnected by exact Hrc. reflexivity.
  - destruct (0 <=? current d - count);
      [rewrite setCurrentIndex_disconnected by exact Hrc; reflexivity|].
    destruct (wrap (config d)); [|reflexivity].
    destruct (_ =? 0); [reflexivity|].
    rewrite setCurrentIndex_disconnected by exact Hrc. reflexivity.
Qed.

Lemma shutdown_requests_app (l1 l2 : list Effect) :
  shutdown_requests (l1 ++ l2) = shutdown_requests l1 ++ shutdown_requests l2.
Proof.
  induction l1 as [|e l1 IH]; [reflexivity|].
  destruct e; cbn; rewrite ?IH; reflexivity.
Qed.

Lemma shutdown_loop_requests (tabcount : Z) (m k : nat) (s : State) :
  (k + m = List.length (pages s))%nat ->
  shutdown_requests
    (effects (for_each (map Z.of_nat (seq k m)) (shutdown_tab tabcount) s))
  = skipn k (pages s).
Proof.
  revert k s. induction m as [|m IH]; intros k s Hkm.
  - cbn. rewrite skipn_all2 by lia. reflexivity.
  - destruct (skipn_nth_cons (pages s) k) as (t & Hnth & Hskip); [lia|].
    cbn [seq map for_each].
    rewrite (bind_step _ _ _ _ _ _ (shutdown_tab_run tabcount k s t Hnth)).
    cbn [effects]. rewrite shutdown_requests_app.
    rewrite (IH (S k) (set_callbacks (callbacks s ++ [t]) s)) by (cbn; lia).
    cbn [pages set_callbacks]. rewrite Hskip. reflexivity.
Qed.

(** X9. [shutdown] asks exactly the pages to shut down, each once and in
    display order, and waits for their callbacks besides those it waited
    for already.  It takes nothing out of [_tabs] or of the pages, and it
    disconnects [currentChanged]. *)
Theorem shutdown_requests_pages (s : State) :
  shutdown_requests (effects (shutdown s)) = pages s /\
  callbacks (final (shutdown s)) = callbacks s ++ pages s /\
  _tabs (final (shutdown s)) = _tabs s /\
  pages (final (shutdown s)) = pages s /\
  replay_connected (final (shutdown s)) = false.
Proof.
  destruct (pages s) as [|p ps] eqn:Ep.
  - rewrite (shutdown_empty s Ep). cbn. rewrite app_nil_r. auto.
  - assert (Hne : pages s <> []) by (rewrite Ep; discriminate).
    destruct (shutdown_fans_out s Hne) as (eff & Hrun & _).
    assert (Heff : effects (shutdown s)
                   = effects (for_each
                                (map Z.of_nat (seq 0 (List.length (pages s))))
                                (shutdown_tab
                                   (Z.of_nat (List.length (pages s))))
                                (set_replay_connected false s))).
    { unfold shutdown.
      rewrite (bind_step _ _ _ _ _ _ (disconnect_run s)). cbv beta.
      rewrite (bind_step _ _ _ _ _ _
                 (count_run (set_replay_connected false s))).
      cbv beta. cbn [pages set_replay_connected].
      destruct (Z.of_nat (List.length (pages s)) =? 0) eqn:E.
      - apply Z.eqb_eq in E. rewrite Ep in E. cbn in E. lia.
      - unfold range. rewrite Nat2Z.id. reflexivity. }
    rewrite Heff, shutdown_loop_requests by reflexivity.
    rewrite Hrun. cbn. rewrite Ep. auto.
Qed.

Lemma switch_next_wrap (s : State) (count : Z) :
  let n := Z.of_nat (List.length (pages s)) in
  0 <= current s < n -> wrap (config s) = true -> 1 <= count ->
  value (switch_next count s) = inl tt /\
  final (switch_next count s) = set_current ((current s + count) mod n) s.
Proof.
  intros n Hcur Hw Hc. subst n.
  pose proof (switch_next_cases s count) as H. cbv zeta in H. rewrite H, Hw.
  assert (Hn : (Z.of_nat (List.length (pages s)) =? 0) = false)
    by (apply Z.eqb_neq; lia).
  rewrite Hn.
  destruct (current s + count <? Z.of_nat (List.length (pages s))) eqn:E.
  - apply Z.ltb_lt in E. rewrite Z.mod_small by lia.
    destruct (setCurrentIndex_valid s (current s + count)) as (Hv & Hf & _);
      [apply valid_index_spec; lia | auto].
  - destruct (setCurrentIndex_valid s
                ((current s + count) mod Z.of_nat (List.length (pages s))))
      as (Hv & Hf & _); [|auto].
    apply valid_index_spec. apply Z.mod_pos_bound. lia.
Qed.

Lemma switch_prev_wrap (s : State) (count : Z) :
  let n := Z.of_nat (List.length (pages s)) in
  0 <= current s < n -> wrap (config s) = true -> 1 <= count ->
  value (switch_prev count s) = inl tt /\
  final (switch_prev count s) = set_current ((current s - count) mod n) s.
Proof.
  intros n Hcur Hw Hc. subst n.
  pose proof (switch_prev_cases s count) as H. cbv zeta in H. rewrite H, Hw.
  assert (Hn : (Z.of_nat (List.length (pages s)) =? 0) = false)
    by (apply Z.eqb_neq; lia).
  rewrite Hn.
  destruct (0 <=? current s - count) eqn:E.
  - apply Z.leb_le in E. rewrite Z.mod_small by lia.
    destruct (setCurrentIndex_valid s (current s - count)) as (Hv & Hf & _);
      [apply valid_index_spec; lia | auto].
  - destruct (setCurrentIndex_valid s
                ((current s - count) mod Z.of_nat (List.length (pages s))))
      as (Hv & Hf & _); [|auto].
    apply valid_index_spec. apply Z.mod_pos_bound. lia.
Qed.

(** X10. With wrapping on, [switch_prev] undoes [switch_next] and the other
    way round: on a widget with pages, going [count] tabs on and [count]
    tabs back ends on the tab one started from, whatever the count. *)
Theorem switch_round_trip (s : State) (count : Z) :
  0 <= current s < Z.of_nat (List.length (pages s)) ->
  wrap (config s) = true -> 1 <= count ->
  final ((switch_next count ;; switch_prev count) s) = s /\
  final ((switch_prev count ;; switch_next count) s) = s.
Proof.
  intros Hcur Hw Hc.
  set (n := Z.of_nat (List.length (pages s))) in *.
  destruct (switch_next_wrap s count Hcur Hw Hc) as (Hv1 & Hf1).
  destruct (switch_prev_wrap s count Hcur Hw Hc) as (Hv2 & Hf2).
  fold n in Hf1, Hf2.
  assert (Hm1 : 0 <= (current s + count) mod n < n)
    by (apply Z.mod_pos_bound; lia).
  assert (Hm2 : 0 <= (current s - count) mod n < n)
    by (apply Z.mod_pos_bound; lia).
  split.
  - rewrite (bind_final _ _ _ _ Hv1), Hf1.
    destruct (switch_prev_wrap (set_current ((current s + count) mod n) s)
                count) as (_ & Hf); [exact Hm1 | exact Hw | exact Hc |].
    rewrite Hf. cbn [current pages set_current]. fold n.
    rewrite Zminus_mod_idemp_l.
    replace (current s + count - count) with (current s) by lia.
    rewrite Z.mod_small by lia. destruct s; reflexivity.
  - rewrite (bind_final _ _ _ _ Hv2), Hf2.
    destruct (switch_next_wrap (set_current ((current s - count) mod n) s)
                count) as (_ & Hf); [exact Hm2 | exact Hw | exact Hc |].
    rewrite Hf. cbn [current pages set_current]. fold n.
    rewrite Zplus_mod_idemp_l.
    replace (current s - count + count) with (current s) by lia.
    rewrite Z.mod_small by lia. destruct s; reflexivity.
Qed.

Lemma switch_round_trip_witness :
  final ((switch_next 7 ;; switch_prev 7) three_tabs) = three_tabs.
Proof.
  assert (Hcur : 0 <= current three_tabs
                 < Z.of_nat (List.length (pages three_tabs)))
    by (vm_compute; split; [discriminate | reflexivity]).
  assert (Hw : wrap (config three_tabs) = true) by (vm_compute; reflexivity).
  assert (Hc : 1 <= 7) by lia.
  exact (proj1 (switch_round_trip three_tabs 7 Hcur Hw Hc)).
Defined.

Lemma remove_nth_last (l : list Tab) (t : Tab) :
  QTabWidget.remove_nth (List.length l) (l ++ [t]) = l.
Proof.
  unfold QTabWidget.remove_nth.
  rewrite firstn_app, Nat.sub_diag, firstn_all. cbn [firstn].
  rewrite app_nil_r.
  rewrite skipn_all2 by (rewrite length_app; cbn; lia).
  apply app_nil_r.
Qed.

Lemma cntwidget_current_of_opened (s : State) (url : QUrl) :
  cntwidget None (opened s url (Z.of_nat (List.length (pages s))))
  = mkRun (inl (Some (next_tab s)))
      (opened s url (Z.of_nat (List.length (pages s)))) [].
Proof.
  assert (Hv : QTabWidget.valid_index
                 (opened s url (Z.of_nat (List.length (pages s))))
                 (Z.of_nat (List.length (pages s))) = true).
  { apply valid_index_spec. cbn [pages opened]. rewrite length_app. cbn. lia. }
  unfold cntwidget, QTabWidget.currentWidget.
  rewrite (bind_step _ _ _ _ _ _ (currentIndex_run _)). cbv beta.
  cbn [current opened]. fold (opened s url (Z.of_nat (List.length (pages s)))).
  unfold QTabWidget.widget.
  rewrite (bind_step get _ _ _ _ [] eq_refl). cbv beta.
  rewrite Hv. cbn [pages opened].
  rewrite Nat2Z.id, nth_error_app2, Nat.sub_diag by lia. reflexivity.
Qed.

(** X11. Opening a tab in the foreground and closing the current tab right
    away, on a widget that had a page before, leaves the pages as they
    were.  The new tab's url is on top of the undo stack, and the new tab
    stays in [_tabs] until its shutdown is confirmed. *)
Theorem tabopen_tabclose_round_trip (s : State) (url : QUrl) :
  wf s -> pages s <> [] ->
  let r := (tabopen url false ;; tabclose None) s in
  value r = inl tt /\
  pages (final r) = pages s /\
  _url_stack (final r) = _url_stack s ++ [url] /\
  _tabs (final r) = _tabs s ++ [next_tab s] /\
  callbacks (final r) = callbacks s ++ [next_tab s].
Proof.
  intros Hwf Hne. cbv zeta.
  pose proof (tabopen_run s url false (wf_next_tab_fresh s Hwf)) as H.
  cbv zeta in H. destruct H as (Hv & Hf & _).
  unfold opened_index in Hf.
  pose proof (cntwidget_current_of_opened s url) as Hcnt.
  assert (Hres : value (cntwidget None
                          (opened s url (Z.of_nat (List.length (pages s)))))
                 = inl (Some (next_tab s))) by (rewrite Hcnt; reflexivity).
  assert (Hn : 1 < Z.of_nat (List.length
                   (pages (opened s url (Z.of_nat (List.length (pages s))))))).
  { cbn [pages opened]. rewrite length_app. cbn.
    destruct (pages s); [contradiction | cbn; lia]. }
  destruct (tabclose_many _ None (next_tab s) Hres Hn)
    as (Hv2 & (c & Hf2 & _) & _).
  unfold bind. rewrite Hv, Hf. cbn [value final effects].
  rewrite Hv2, Hf2. cbn [value final closed close_index opened pages
                         _url_stack _tabs callbacks location current].
  rewrite Nat2Z.id, remove_nth_last, Nat.eqb_refl. auto.
Qed.

Lemma tabopen_tabclose_round_trip_witness :
  pages (final ((tabopen "http://d"%string false ;; tabclose None) three_tabs))
  = pages three_tabs.
Proof.
  assert (Hne : pages three_tabs <> []) by (vm_compute; discriminate).
  pose proof (tabopen_tabclose_round_trip three_tabs "http://d"%string
                three_tabs_wf Hne) as H.
  cbv zeta in H. destruct H as (_ & H & _). exact H.
Defined.

(** X12. [backtabopen] opens the tab as [tabopen] does in the background:
    the tab is appended and sent to the url, and on a widget that had a
    page the current index, and with it the current tab, stays. *)
Theorem backtabopen_keeps_current (s : State) (url : QUrl) :
  wf s -> pages s <> [] ->
  let r := backtabopen url s in
  value r = inl None /\
  pages (final r) = pages s ++ [next_tab s] /\
  location (final r) (next_tab s) = url /\
  current (final r) = current s /\
  nth_error (pages (final r)) (Z.to_nat (current (final r)))
  = nth_error (pages s) (Z.to_nat (current s)).
Proof.
  intros Hwf Hne. cbv zeta.
  pose proof (tabopen_run s url true (wf_next_tab_fresh s Hwf)) as H.
  cbv zeta in H. destruct H as (Hv & Hf & _).
  assert (Hcur : 0 <= current s < Z.of_nat (List.length (pages s))).
  { pose proof (wf_current s Hwf) as Hc. unfold current_ok in Hc.
    destruct (pages s); [contradiction | exact Hc]. }
  unfold backtabopen, bind. rewrite Hv, Hf. cbn [value final effects ret].
  unfold opened_index. cbn [pages current location opened].
  rewrite Nat.eqb_refl.
  destruct (pages s) as [|p ps] eqn:Ep; [contradiction|].
  rewrite <- Ep in *.
  split; [reflexivity|]. split; [reflexivity|]. split; [reflexivity|].
  split; [reflexivity|].
  apply nth_error_app1. lia.
Qed.

Lemma backtabopen_keeps_current_witness :
  current (final (backtabopen "http://d"%string three_tabs))
  = current three_tabs.
Proof.
  assert (Hne : pages three_tabs <> []) by (vm_compute; discriminate).
  pose proof (backtabopen_keeps_current three_tabs "http://d"%string
                three_tabs_wf Hne) as H.
  cbv zeta in H. destruct H as (_ & _ & _ & H & _). exact H.
Defined.

(** X13. Closing a tab, with more than one page open, and undoing it
    restores the undo stack and the number of pages: the closed page is
    gone and a new tab at its location is the last page. *)
Theorem tabclose_undo_round_trip (s : State) (count : option Z) (tab : Tab) :
  wf s ->
  value (cntwidget count s) = inl (Some tab) ->
  1 < Z.of_nat (List.length (pages s)) ->
  let r := (tabclose count ;; undo_close) s in
  value r = inl tt /\
  _url_stack (final r) = _url_stack s /\
  pages (final r)
  = QTabWidget.remove_nth (Z.to_nat (close_index s count)) (pages s)
    ++ [next_tab s] /\
  List.length (pages (final r)) = List.length (pages s) /\
  location (final r) (next_tab s) = location s tab.
Proof.
  intros Hwf Hres Hn. cbv zeta.
  destruct (tabclose_many s count tab Hres Hn) as (Hv & (c & Hf & _) & _).
  pose proof (wf_tabclose s count Hwf) as Hwf1.
  destruct (cntwidget_resolves s count tab Hres) as (_ & Hvalid & _).
  apply valid_index_spec in Hvalid.
  assert (Hst : _url_stack (final (tabclose count s))
                = _url_stack s ++ [location s tab])
    by (rewrite Hf; reflexivity).
  destruct (undo_close_reopens _ _ _ Hwf1 Hst) as ((Hv2 & _ & Hp & _ & Hl & _)
                                                   & Hst2).
  rewrite (bind_final _ _ _ _ Hv).
  assert (Hval : value ((tabclose count;; undo_close) s) = inl tt).
  { unfold bind. rewrite Hv. cbn [value]. exact Hv2. }
  assert (Hnt : next_tab (final (tabclose count s)) = next_tab s)
    by (rewrite Hf; reflexivity).
  rewrite Hnt in Hp, Hl.
  split; [exact Hval|]. split; [exact Hst2|].
  rewrite Hp, Hl. rewrite Hf. cbn [pages location closed].
  split; [reflexivity|]. split; [|reflexivity].
  rewrite length_app, remove_nth_length by lia. cbn. lia.
Qed.

Lemma tabclose_undo_round_trip_witness :
  _url_stack (final ((tabclose (Some 2) ;; undo_close) three_tabs))
  = _url_stack three_tabs.
Proof.
  assert (Hres : value (cntwidget (Some 2) three_tabs) = inl (Some 1%nat))
    by (vm_compute; reflexivity).
  assert (Hn : 1 < Z.of_nat (List.length (pages three_tabs)))
    by (vm_compute; reflexivity).
  pose proof (tabclose_undo_round_trip three_tabs (Some 2) 1%nat
                three_tabs_wf Hres Hn) as H.
  cbv zeta in H. destruct H as (_ & H & _). exact H.
Defined.

(** X14. [cntwidget] only looks: it never raises, changes nothing and has
    no effect.  A count outside [1 .. count()] gives [None]; within a
    widget whose current index is in range, the 1-based index of the
    current tab gives the widget that no count gives. *)
Theorem cntwidget_lookup (s : State) (count : option Z) :
  (exists w, cntwidget count s = mkRun (inl w) s []) /\
  (forall c, ~ (1 <= c <= Z.of_nat (List.length (pages s))) ->
     value (cntwidget (Some c) s) = inl None) /\
  (0 <= current s < Z.of_nat (List.length (pages s)) ->
     cntwidget (Some (current s + 1)) s = cntwidget None s).
Proof.
  split; [|split].
  - unfold cntwidget, QTabWidget.currentWidget, QTabWidget.currentIndex,
      QTabWidget.count, QTabWidget.widget, bind, get.
    destruct count as [c|]; cbn.
    + destruct ((1 <=? c) && (c <=? Z.of_nat (List.length (pages s)))); cbn;
        eauto.
    + eauto.
  - intros c Hout.
    unfold cntwidget, QTabWidget.count, bind, get. cbn.
    destruct ((1 <=? c) && (c <=? Z.of_nat (List.length (pages s)))) eqn:E;
      [|reflexivity].
    apply andb_true_iff in E. destruct E as [E1 E2].
    apply Z.leb_le in E1. apply Z.leb_le in E2. lia.
  - intros Hcur.
    unfold cntwidget, QTabWidget.currentWidget, QTabWidget.currentIndex,
      QTabWidget.count, QTabWidget.widget, bind, get. cbn.
    replace ((1 <=? current s + 1)
             && (current s + 1 <=? Z.of_nat (List.length (pages s))))
      with true
      by (symmetry; apply andb_true_iff; split; apply Z.leb_le; lia).
    cbn. replace (current s + 1 - 1) with (current s) by lia. reflexivity.
Qed.

Lemma cntwidget_lookup_witness :
  cntwidget (Some (current three_tabs + 1)) three_tabs
  = cntwidget None three_tabs.
Proof.
  assert (Hcur : 0 <= current three_tabs
                 < Z.of_nat (List.length (pages three_tabs)))
    by (vm_compute; split; [discriminate | reflexivity]).
  exact (proj2 (proj2 (cntwidget_lookup three_tabs None)) Hcur).
Defined.
